(** * Lead-generation pipeline (src/app.py): a shallow embedding

    The pipeline of [src/app.py] is dynamically typed Python working on
    JSON-shaped data that comes back from three remote services.  The
    embedding keeps that shape:

    - a Python value is a [value] (None, bool, int, float, str, list, dict);
      a dict is an association list in insertion order with [str] keys
      (the keys of a Python dict are distinct; nothing below depends on it);
    - an operation that can raise returns a [result]; the exceptions are the
      ones the operations of the source raise ([TypeError], [KeyError],
      [AttributeError], [StopIteration]) plus [ExternalError] for whatever
      a remote library raises.  All of them are subclasses of Python's [Exception];
    - the remote services (HTTP search, page extraction, model listing) are
      parameters: a call takes the state of the outside world and returns an
      outcome together with the next state of the world. *)

From Stdlib Require Import ZArith String Ascii List Bool Lia.
From stdpp Require Import base option list.
Import ListNotations.

Set Warnings "-register-all".

Local Open Scope string_scope.
Local Open Scope list_scope.

(** ** Python values *)

Module Py.

Inductive value : Type :=
| VNone
| VBool (b : bool)
| VInt (n : Z)
| VFloat (bits : Z)          (* IEEE-754 binary64, by its 64-bit pattern *)
| VStr (s : string)
| VList (items : list value)
| VDict (entries : list (string * value)).

Inductive exn : Type :=
| TypeError
| KeyError (key : string)
| AttributeError
| StopIteration
| ExternalError (name : string).

Inductive result (A : Type) : Type :=
| Ok (a : A)
| Raise (e : exn).

Arguments Ok {A} a.
Arguments Raise {A} e.

Definition bind {A B : Type} (m : result A) (k : A -> result B) : result B :=
  match m with
  | Ok a => k a
  | Raise e => Raise e
  end.

Declare Scope py_scope.
Delimit Scope py_scope with py.
Notation "'let*' x ':=' m 'in' k" := (bind m (fun x => k))
  (at level 10, x name, m at level 100, k at level 200) : py_scope.
Local Open Scope py_scope.

(** [for x in items: acc = body x acc], an exception leaves the loop. *)
Fixpoint for_each {A S : Type} (items : list A) (body : A -> S -> result S)
    (acc : S) : result S :=
  match items with
  | [] => Ok acc
  | x :: rest =>
      let* acc' := body x acc in
      for_each rest body acc'
  end.

(** *** dict *)

Fixpoint dict_lookup (entries : list (string * value)) (key : string)
    : option value :=
  match entries with
  | [] => None
  | (k, v) :: rest => if String.eqb k key then Some v else dict_lookup rest key
  end.

(** [d.get(key, default)] on a dict *)
Definition dict_get (entries : list (string * value)) (key : string)
    (default : value) : value :=
  match dict_lookup entries key with
  | Some v => v
  | None => default
  end.

(** [v.get(key, default)]: only a dict has the method. *)
Definition get (v : value) (key : string) (default : value) : result value :=
  match v with
  | VDict entries => Ok (dict_get entries key default)
  | _ => Raise AttributeError
  end.

(** [v[key]] with a [str] key. *)
Definition getitem (v : value) (key : string) : result value :=
  match v with
  | VDict entries =>
      match dict_lookup entries key with
      | Some x => Ok x
      | None => Raise (KeyError key)
      end
  | _ => Raise TypeError
  end.

(** *** truth value, equality with a str literal *)

Definition truthy (v : value) : bool :=
  match v with
  | VNone => false
  | VBool b => b
  | VInt n => negb (n =? 0)%Z
  | VFloat bits => negb (Z.land bits (2 ^ 63 - 1) =? 0)%Z
  | VStr s => negb (String.eqb s "")
  | VList items => match items with [] => false | _ => true end
  | VDict entries => match entries with [] => false | _ => true end
  end.

(** [v == lit] for a str literal [lit] *)
Definition eq_str (v : value) (lit : string) : bool :=
  match v with
  | VStr s => String.eqb s lit
  | _ => false
  end.

(** *** iteration *)

Fixpoint chars (s : string) : list value :=
  match s with
  | EmptyString => []
  | String c rest => VStr (String c EmptyString) :: chars rest
  end.

(** [iter(v)] run to the end: list items, the characters of a str, the keys
    of a dict; the other values are not iterable. *)
Definition iter (v : value) : result (list value) :=
  match v with
  | VList items => Ok items
  | VStr s => Ok (chars s)
  | VDict entries => Ok (map (fun kv => VStr (fst kv)) entries)
  | _ => Raise TypeError
  end.

(** *** str.join *)

Fixpoint as_strs (items : list value) : result (list string) :=
  match items with
  | [] => Ok []
  | VStr s :: rest => let* ss := as_strs rest in Ok (s :: ss)
  | _ :: _ => Raise TypeError
  end.

(** [sep.join(v)]; on a list of strs it is the library's [String.concat]. *)
Definition join (sep : string) (v : value) : result string :=
  let* items := iter v in
  let* parts := as_strs items in
  Ok (String.concat sep parts).

End Py.

Import Py.
Local Open Scope py_scope.

(** ** Flattener: [format_user_info_to_flattened_json] (app.py 73-92) *)

(** The dict literal of lines 81-89, its values evaluated in order. *)
Definition flattened_interaction (website_url interaction : value)
    : result value :=
  let* username := get interaction "username" (VStr "") in
  let* bio := get interaction "bio" (VStr "") in
  let* post_type := get interaction "post_type" (VStr "") in
  let* timestamp := get interaction "timestamp" (VStr "") in
  let* upvotes := get interaction "upvotes" (VInt 0) in
  let* links := get interaction "links" (VList []) in
  let* joined := join ", " links in
  Ok (VDict [ ("Website URL", website_url);
              ("Username", username);
              ("Bio", bio);
              ("Post Type", post_type);
              ("Timestamp", timestamp);
              ("Upvotes", upvotes);
              ("Links", VStr joined) ]).

(** Body of the outer loop, lines 77-90. *)
Definition flatten_page (info : value) (flattened_data : list value)
    : result (list value) :=
  let* website_url := getitem info "website_url" in
  let* user_info := getitem info "user_info" in
  let* interactions := iter user_info in
  for_each interactions
    (fun interaction flattened_data =>
       let* flattened_interaction :=
         flattened_interaction website_url interaction in
       Ok (flattened_data ++ [flattened_interaction]))
    flattened_data.

Definition format_user_info_to_flattened_json (user_info_list : list value)
    : result (list value) :=
  for_each user_info_list flatten_page [].

(** ** Calls to the outside world

    A remote call reads and changes the world; the code between two calls
    also keeps local mutable state.  A computation takes the store and
    returns a [result] with the store it leaves, also when it raises. *)

Module Eff.

Definition M (St A : Type) : Type := St -> result A * St.

Definition ret {St A : Type} (a : A) : M St A := fun s => (Ok a, s).

Definition lift {St A : Type} (r : result A) : M St A := fun s => (r, s).

Definition bindM {St A B : Type} (m : M St A) (k : A -> M St B) : M St B :=
  fun s =>
    match m s with
    | (Ok a, s') => k a s'
    | (Raise e, s') => (Raise e, s')
    end.

(** [try: m  except Exception: pass] *)
Definition try_pass {St : Type} (m : M St unit) : M St unit :=
  fun s =>
    match m s with
    | (Ok _, s') => (Ok tt, s')
    | (Raise _, s') => (Ok tt, s')
    end.

(** [for x in items: body x] *)
Fixpoint for_ {St A : Type} (items : list A) (body : A -> M St unit)
    : M St unit :=
  match items with
  | [] => ret tt
  | x :: rest => bindM (body x) (fun _ => for_ rest body)
  end.

Declare Scope eff_scope.
Delimit Scope eff_scope with eff.
Notation "'let!' x ':=' m 'in' k" := (bindM m (fun x => k))
  (at level 10, x name, m at level 100, k at level 200) : eff_scope.

End Eff.

Import Eff.
Local Open Scope eff_scope.

(** ** Link discovery: [search_for_urls] (app.py 25-45) *)

(** [requests.post(url, json=..., headers=...)] and what the code reads of
    the response: [status_code] and the outcome of [response.json()]. *)
Record request : Type := {
  req_url : string;
  req_json : value;
  req_headers : list (string * string)
}.

Record response : Type := {
  status_code : Z;
  json : result value
}.

(** The list comprehension [[f x for x in items]]. *)
Fixpoint comprehension (f : value -> result value) (items : list value)
    : result (list value) :=
  match items with
  | [] => Ok []
  | x :: rest =>
      let* y := f x in
      let* ys := comprehension f rest in
      Ok (y :: ys)
  end.

(** Lines 40-45: what is returned for a response. *)
Definition urls_of_response (response : response) : result (list value) :=
  if (status_code response =? 200)%Z then
    let* data := json response in
    let* success := get data "success" VNone in
    if truthy success then
      let* results := get data "data" (VList []) in
      let* items := iter results in
      comprehension (fun result => getitem result "url") items
    else Ok []
  else Ok [].

(** Lines 26-38: the request that is posted. *)
Definition search_request (company_description firecrawl_api_key : string)
    (num_links : Z) : request :=
  let url := "https://api.firecrawl.dev/v1/search" in
  let headers :=
    [ ("Authorization", ("Bearer " ++ firecrawl_api_key)%string);
      ("Content-Type", "application/json") ] in
  let query1 :=
    ("quora websites where people are looking for "
       ++ company_description ++ " services")%string in
  let payload :=
    VDict [ ("query", VStr query1);
            ("limit", VInt num_links);
            ("lang", VStr "en");
            ("location", VStr "United States");
            ("timeout", VInt 60000) ] in
  {| req_url := url; req_json := payload; req_headers := headers |}.

Section Discovery.

Variable World : Type.
Variable requests_post : request -> M World response.

Definition search_for_urls (company_description firecrawl_api_key : string)
    (num_links : Z) : M World (list value) :=
  let! response :=
    requests_post
      (search_request company_description firecrawl_api_key num_links) in
  lift (urls_of_response response).

End Discovery.

(** ** Structured extractor: [extract_user_info_from_urls] (app.py 47-71) *)

(** Lines 61-67: what a response adds to [user_info_list]. *)
Definition accept_response (url response : value)
    (user_info_list : list value) : result (list value) :=
  let* success := get response "success" VNone in
  let* completed :=
    if truthy success then
      let* status := get response "status" VNone in
      Ok (eq_str status "completed")
    else Ok false in
  if completed then
    let* data := get response "data" (VDict []) in
    let* interactions := get data "interactions" (VList []) in
    if truthy interactions then
      Ok (user_info_list
            ++ [VDict [("website_url", url); ("user_info", interactions)]])
    else Ok user_info_list
  else Ok user_info_list.

Definition extract_prompt : string :=
  "Extract all user information including username, bio, post type (question/answer), timestamp, upvotes, and any links from Quora posts. Focus on identifying potential leads who are asking questions or providing answers related to the topic.".

Section Extraction.

Variable World : Type.

(** [FirecrawlApp(api_key=k).extract(urls, params)].  The constructor only
    stores the key; the call goes to the service. *)
Variable firecrawl_extract : string -> value -> value -> M World value.

(** [QuoraPageSchema.model_json_schema()], computed by pydantic. *)
Variable QuoraPageSchema_json_schema : value.

(** The local list and the world the calls act on. *)
Record store : Type := {
  user_info_list : list value;
  world : World
}.

(** The second argument of [extract], lines 55-58. *)
Definition extract_params : value :=
  VDict [ ("prompt", VStr extract_prompt);
          ("schema", QuoraPageSchema_json_schema) ].

Definition call_extract (firecrawl_api_key : string) (url : value)
    : M store value :=
  fun s =>
    let (r, w) :=
      firecrawl_extract firecrawl_api_key (VList [url]) extract_params
        (world s) in
    (r, {| user_info_list := user_info_list s; world := w |}).

Definition update_list (f : list value -> result (list value))
    : M store unit :=
  fun s =>
    match f (user_info_list s) with
    | Ok l => (Ok tt, {| user_info_list := l; world := world s |})
    | Raise e => (Raise e, s)
    end.

(** Body of the loop, lines 53-67. *)
Definition extract_body (firecrawl_api_key : string) (url : value)
    : M store unit :=
  let! response := call_extract firecrawl_api_key url in
  update_list (accept_response url response).

Definition extract_user_info_from_urls (urls : list value)
    (firecrawl_api_key : string) : M World (list value) :=
  fun w =>
    let (_, s) :=
      try_pass (for_ urls (extract_body firecrawl_api_key))
        {| user_info_list := []; world := w |} in
    (Ok (user_info_list s), world s).

(** *** The calls a batch stands for

    [service_trace] is what the service answers when it is called for the
    URLs one after the other, each call in the world the one before it
    left. *)
Fixpoint service_trace (firecrawl_api_key : string) (urls : list value)
    (w : World) : list (value * result value) :=
  match urls with
  | [] => []
  | url :: rest =>
      let (r, w') :=
        firecrawl_extract firecrawl_api_key (VList [url]) extract_params w
      in (url, r) :: service_trace firecrawl_api_key rest w'
  end.

End Extraction.

(** A response is a successful extraction when it is a dict that reports
    success and the status [completed] and whose [data] is a dict; its
    interactions are then [data.interactions]. *)
Definition succeeded (response : value) : option value :=
  match response with
  | VDict r =>
      if truthy (dict_get r "success" VNone)
         && eq_str (dict_get r "status" VNone) "completed"
      then
        match dict_get r "data" (VDict []) with
        | VDict d => Some (dict_get d "interactions" (VList []))
        | _ => None
        end
      else None
  | _ => None
  end.

(** The entry a call contributes to the result, if any. *)
Definition entry_of (call : value * result value) : option value :=
  match call with
  | (url, Ok response) =>
      match succeeded response with
      | Some interactions =>
          if truthy interactions
          then Some (VDict [("website_url", url); ("user_info", interactions)])
          else None
      | None => None
      end
  | (_, Raise _) => None
  end.

(** A step of the loop raises when the call does or when reading the
    response does. *)
Definition step_raises (call : value * result value) : bool :=
  match call with
  | (_, Raise _) => true
  | (url, Ok response) =>
      match accept_response url response [] with
      | Ok _ => false
      | Raise _ => true
      end
  end.

(** The calls up to the first step that raises. *)
Fixpoint completed_steps (trace : list (value * result value))
    : list (value * result value) :=
  match trace with
  | [] => []
  | call :: rest =>
      if step_raises call then [] else call :: completed_steps rest
  end.

Arguments user_info_list {World} _.
Arguments world {World} _.
Arguments Build_store {World} _ _.

(** ** Model selection (app.py 116-146) *)

(** A model object of the listing: [None] stands for an attribute that is
    absent or [None]. *)
Record model : Type := {
  name : option string;
  supported_generation_methods : option (list string)
}.

(** [sub in s] on strs *)
Fixpoint contains (sub s : string) : bool :=
  String.prefix sub s
  || match s with
     | EmptyString => false
     | String _ rest => contains sub rest
     end.

(** [s.split("/")] as its first piece and the pieces after it. *)
Fixpoint split_slash (s : string) : string * list string :=
  match s with
  | EmptyString => ("", [])
  | String c rest =>
      let (piece, pieces) := split_slash rest in
      if Ascii.eqb c "/" then ("", piece :: pieces)
      else (String c piece, pieces)
  end.

(** [s.split("/")[-1]] *)
Definition last_segment (s : string) : string :=
  let (piece, pieces) := split_slash s in
  List.last pieces piece.

(** Lines 121-126, the loop over the listed models. *)
Fixpoint collect_names (models : list model) (names : list string)
    : list string :=
  match models with
  | [] => names
  | m :: rest =>
      let methods :=
        match supported_generation_methods m with
        | Some l => l
        | None => []
        end in
      if existsb (String.eqb "generateContent") methods
         || existsb (String.eqb "createContent") methods
      then
        match name m with
        | Some n =>
            if negb (String.eqb n "")
            then collect_names rest (names ++ [last_segment n])
            else collect_names rest names
        | None => collect_names rest names
        end
      else collect_names rest names
  end.

Definition auto_choice : string := "Auto (recommended)".

Definition priority : list string :=
  [ "gemini-2.5-flash";
    "gemini-2.5-pro";
    "gemini-2.0-flash";
    "gemini-2.0-pro";
    "gemini-1.5-pro";
    "gemini-1.5-flash" ].

(** Lines 143-146. [next] on an exhausted generator raises
    [StopIteration]. *)
Fixpoint pick_by_priority (priority : list string) (available : list string)
    : result string :=
  match priority with
  | [] => Ok "gemini-1.5-pro"
  | pid :: rest =>
      if existsb (contains pid) available then
        match List.find (contains pid) available with
        | Some a => Ok a
        | None => Raise StopIteration
        end
      else pick_by_priority rest available
  end.

Section ModelSelection.

Variable World : Type.

(** [genai.configure(api_key=k)] followed by the full iteration of
    [genai.list_models()]; it raises when either does. *)
Variable genai_list_models : string -> M World (list model).

Definition list_available_gemini_models (api_key : string)
    : M World (list string) :=
  fun w =>
    match genai_list_models api_key w with
    | (Ok models, w') => (Ok (collect_names models []), w')
    | (Raise _, w') => (Ok [], w')
    end.

Definition choose_gemini_model (api_key choice : string)
    : M World string :=
  if negb (String.eqb choice auto_choice) then ret choice
  else
    let! available := list_available_gemini_models api_key in
    lift (pick_by_priority priority available).

End ModelSelection.

(** ** The data model of the flattener's input

    A PageExtraction is a dict with a [website_url] and a [user_info] list
    of interactions; an interaction is a dict whose [links], when present,
    is a list of strs.  Every other field of an interaction may be absent
    and may hold any value. *)

Definition is_str (v : value) : bool :=
  match v with VStr _ => true | _ => false end.

Definition is_interaction (v : value) : bool :=
  match v with
  | VDict d =>
      match dict_lookup d "links" with
      | None => true
      | Some (VList l) => forallb is_str l
      | Some _ => false
      end
  | _ => false
  end.

Definition is_page_extraction (v : value) : bool :=
  match v with
  | VDict d =>
      match dict_lookup d "website_url", dict_lookup d "user_info" with
      | Some _, Some (VList xs) => forallb is_interaction xs
      | _, _ => false
      end
  | _ => false
  end.

Definition page_url (info : value) : value :=
  match info with
  | VDict d => dict_get d "website_url" VNone
  | _ => VNone
  end.

Definition page_interactions (info : value) : list value :=
  match info with
  | VDict d =>
      match dict_lookup d "user_info" with
      | Some (VList xs) => xs
      | _ => []
      end
  | _ => []
  end.

Definition interaction_count (info : value) : nat :=
  List.length (page_interactions info).

(** The (page url, interaction) pairs, pages in order and the interactions
    of a page in order. *)
Definition pairs (pages : list value) : list (value * value) :=
  flat_map (fun p => map (pair (page_url p)) (page_interactions p)) pages.

Definition strs_of (items : list value) : list string :=
  omap (fun v => match v with VStr s => Some s | _ => None end) items.

Definition links_of (d : list (string * value)) : list string :=
  match dict_lookup d "links" with
  | Some (VList l) => strs_of l
  | _ => []
  end.

Definition flat_record (url : value) (d : list (string * value)) : value :=
  VDict [ ("Website URL", url);
          ("Username", dict_get d "username" (VStr ""));
          ("Bio", dict_get d "bio" (VStr ""));
          ("Post Type", dict_get d "post_type" (VStr ""));
          ("Timestamp", dict_get d "timestamp" (VStr ""));
          ("Upvotes", dict_get d "upvotes" (VInt 0));
          ("Links", VStr (String.concat ", " (links_of d))) ].

Definition record_of_pair (p : value * value) : value :=
  match snd p with
  | VDict d => flat_record (fst p) d
  | _ => VNone
  end.

(** ** Views of the search answer *)

(** The body of the answer holds no true [success] flag: it does not
    parse, it is not a JSON object, or its [success] is absent or not
    true. *)
Definition lacks_true_success (resp : response) : bool :=
  match json resp with
  | Ok (VDict d) => negb (truthy (dict_get d "success" VNone))
  | _ => true
  end.

(** ** Views of the flattener on any input

    What the loops of lines 76-90 iterate over, also for input outside the
    data model: the items of a page are what iterating its [user_info]
    yields (nothing when the page has none). *)

Definition page_items (info : value) : list value :=
  match getitem info "user_info" with
  | Ok user_info =>
      match iter user_info with
      | Ok items => items
      | Raise _ => []
      end
  | Raise _ => []
  end.

(** The keys of the dict literal of lines 81-89, in order. *)
Definition record_keys : list string :=
  [ "Website URL"; "Username"; "Bio"; "Post Type"; "Timestamp"; "Upvotes";
    "Links" ].

(** A str of ASCII characters only.  For such a str the characters Python
    iterates over are the [ascii] items of the [string]. *)
Definition is_ascii_char (c : ascii) : bool :=
  match c with
  | Ascii _ _ _ _ _ _ _ b7 => negb b7
  end.

Fixpoint is_ascii (s : string) : bool :=
  match s with
  | EmptyString => true
  | String c rest => is_ascii_char c && is_ascii rest
  end.

(** The one-character strs of an ASCII str, as iterating it yields them. *)
Fixpoint char_strs (s : string) : list string :=
  match s with
  | EmptyString => []
  | String c rest => String c EmptyString :: char_strs rest
  end.

(** A [links] value that [", ".join] rejects: it is not iterable, or it is
    a list with an item that is not a str. *)
Definition bad_links (v : value) : bool :=
  match v with
  | VList l => negb (forallb is_str l)
  | VStr _ => false
  | VDict _ => false
  | _ => true
  end.

(** An item on which line 83 or line 88 raises. *)
Definition bad_interaction (x : value) : bool :=
  match x with
  | VDict d =>
      match dict_lookup d "links" with
      | Some v => bad_links v
      | None => false
      end
  | _ => true
  end.

(** ** Views of the extractor *)

Definition is_dict (v : value) : bool :=
  match v with VDict _ => true | _ => false end.

Section ExtractionViews.

Variable World : Type.
Variable firecrawl_extract : string -> value -> value -> M World value.
Variable QuoraPageSchema_json_schema : value.

(** The world after the service was called for the URLs one after the
    other. *)
Fixpoint world_after (firecrawl_api_key : string) (urls : list value)
    (w : World) : World :=
  match urls with
  | [] => w
  | url :: rest =>
      world_after firecrawl_api_key rest
        (snd (firecrawl_extract firecrawl_api_key (VList [url])
                (extract_params QuoraPageSchema_json_schema) w))
  end.

End ExtractionViews.

(** ** Views of the model listing *)

(** Line 123: the model supports content generation. *)
Definition generates_content (m : model) : bool :=
  let methods :=
    match supported_generation_methods m with
    | Some l => l
    | None => []
    end in
  existsb (String.eqb "generateContent") methods
  || existsb (String.eqb "createContent") methods.

(** The name a listed model adds to [names], if any. *)
Definition listed_name (m : model) : option string :=
  if generates_content m then
    match name m with
    | Some n => if String.eqb n "" then None else Some (last_segment n)
    | None => None
    end
  else None.

(** ** The page: [main] (app.py 95-114, 148-241)

    Streamlit is the user interface.  The values the widgets return in a
    run are given ([Widgets.values]); every call [st.f(args, kwargs)] is
    recorded, in order, in the list of calls made so far.  The agent, the
    CSV and JSON writers, the file system and [str] are parameters like the
    other services.  The two literals of the source that hold a character
    outside ASCII are written as their UTF-8 bytes. *)

Definition dq : string := String "034"%char EmptyString.
Definition nl : string := String "010"%char EmptyString.

Definition prompt_transformation_instructions : string :=
  String.concat ""
    [ "You are an expert at transforming detailed user queries into concise company descriptions."; nl;
      "Your task is to extract the core business/product focus in 3-4 words."; nl; nl;
      "Examples:"; nl;
      "Input: "; dq; "Generate leads looking for AI-powered customer support chatbots for e-commerce stores."; dq; nl;
      "Output: "; dq; "AI customer support chatbots for e commerce"; dq; nl; nl;
      "Input: "; dq; "Find people interested in voice cloning technology for creating audiobooks and podcasts"; dq; nl;
      "Output: "; dq; "voice cloning technology"; dq; nl; nl;
      "Input: "; dq; "Looking for users who need automated video editing software with AI capabilities"; dq; nl;
      "Output: "; dq; "AI video editing software"; dq; nl; nl;
      "Input: "; dq; "Need to find businesses interested in implementing machine learning solutions for fraud detection"; dq; nl;
      "Output: "; dq; "ML fraud detection"; dq; nl; nl;
      "Always focus on the core product/service and keep it concise but clear." ].

(** Lines 183-187: the prompt given to the agent. *)
Definition transformation_prompt (instructions user_query : string)
    : string :=
  (instructions ++ nl ++ nl
     ++ "Input: " ++ dq ++ user_query ++ dq ++ nl
     ++ "Output:")%string.

(** [Agent(model=Gemini(id=model_id, api_key=gemini_api_key))] *)
Record agent : Type := {
  agent_model_id : string;
  agent_api_key : string
}.

Definition create_prompt_transformation_agent (gemini_api_key model_id : string)
    : agent :=
  {| agent_model_id := model_id; agent_api_key := gemini_api_key |}.

(** What [transform_agent.run(prompt)] returns: an object with a [content]
    attribute, or one without, of which only [str(...)] is used. *)
Inductive run_output : Type :=
| HasContent (content : value)
| NoContent (text : string).

(** A call of the Streamlit function [fn] with its positional and its
    keyword arguments. *)
Record st_call : Type := {
  fn : string;
  args : list value;
  kwargs : list (string * value)
}.

Module Widgets.

(** What the input widgets of lines 154-173 return. *)
Record values : Type := {
  firecrawl_api_key : string;
  gemini_api_key : string;
  gemini_model_id : string;
  output_csv_path : string;
  num_links : Z;
  reset : bool;
  user_query : string;
  generate_leads : bool
}.

End Widgets.

(** How a run of [main] ends: at its last line, or at [st.rerun()]. *)
Inductive outcome : Type :=
| Done
| Rerun.

(** [list(v.keys())] *)
Definition keys (v : value) : result (list string) :=
  match v with
  | VDict entries => Ok (map fst entries)
  | _ => Raise AttributeError
  end.

(** [try: m  except Exception as e: handler e] *)
Definition try_except {St : Type} (m : M St unit) (handler : exn -> M St unit)
    : M St unit :=
  fun s =>
    match m s with
    | (Ok _, s') => (Ok tt, s')
    | (Raise e, s') => handler e s'
    end.

Section Main.

Variable World : Type.
Variable genai_list_models : string -> M World (list model).
Variable agent_run : agent -> string -> M World run_output.
Variable requests_post : request -> M World response.
Variable firecrawl_extract : string -> value -> value -> M World value.
Variable QuoraPageSchema_json_schema : value.

(** Opening the output file for writing (line 233), and the header and
    rows a [csv.DictWriter] with these field names writes to the open
    file (lines 234-236). *)
Variable open_file : string -> M World unit.
Variable write_csv : string -> list string -> list value -> M World unit.

(** The text a [csv.DictWriter] with these field names writes for the
    rows, and [json.dumps(v, indent=2)]. *)
Variable csv_text : list string -> list value -> result string.
Variable json_dumps : value -> result string.

(** [str(v)] for a value that is not a str, and [str(e)] for an
    exception. *)
Variable str_of_value : value -> string.
Variable str_of_exn : exn -> string.

(** The calls made to Streamlit so far and the world outside. *)
Record page : Type := {
  shown : list st_call;
  outside : World
}.

Definition st (fn : string) (args : list value)
    (kwargs : list (string * value)) : M page unit :=
  fun s =>
    (Ok tt,
     {| shown := shown s ++ [{| fn := fn; args := args; kwargs := kwargs |}];
        outside := outside s |}).

Definition remote {A : Type} (m : M World A) : M page A :=
  fun s =>
    let (r, w) := m (outside s) in
    (r, {| shown := shown s; outside := w |}).

(** [with st.spinner(text): body]; the block is left through [__exit__]
    also when the body raises. *)
Definition spinner {A : Type} (text : string) (body : M page A) : M page A :=
  fun s =>
    let (_, s1) := st "spinner" [VStr text] [] s in
    let (r, s2) := body s1 in
    let (_, s3) := st "spinner.__exit__" [] [] s2 in
    (r, s3).

(** An f-string field [{v}]. *)
Definition format_value (v : value) : string :=
  match v with
  | VStr s => s
  | _ => str_of_value v
  end.

(** Lines 232-239. *)
Definition save_csv (output_csv_path : string) (first : value)
    (flattened_data : list value) : M page unit :=
  try_except
    (let! _ := remote (open_file output_csv_path) in
     let! fieldnames := lift (keys first) in
     let! _ := remote (write_csv output_csv_path fieldnames flattened_data) in
     st "success" [VStr ("Saved CSV to " ++ output_csv_path)%string] [])
    (fun e =>
       st "error" [VStr ("Failed to save CSV: " ++ str_of_exn e)%string] []).

(** Lines 207-239, for the non-empty [flattened_data = first :: rest]. *)
Definition show_leads (output_csv_path : string) (first : value)
    (rest : list value) : M page unit :=
  let flattened_data := first :: rest in
  let! _ := st "subheader" [VStr "Preview Leads"] [] in
  let! _ := st "dataframe" [VList flattened_data]
              [("use_container_width", VBool true)] in
  let! csv :=
    lift (if (0 <? Z.of_nat (List.length flattened_data))%Z then
            let* fieldnames := keys first in
            csv_text fieldnames flattened_data
          else Ok "") in
  let! _ := st "download_button" []
              [ ("label", VStr "Download CSV");
                ("data", VStr csv);
                ("file_name", VStr "leads.csv");
                ("mime", VStr "text/csv") ] in
  let! json := lift (json_dumps (VList flattened_data)) in
  let! _ := st "download_button" []
              [ ("label", VStr "Download JSON");
                ("data", VStr json);
                ("file_name", VStr "leads.json");
                ("mime", VStr "application/json") ] in
  save_csv output_csv_path first flattened_data.

(** Lines 196-239, for the non-empty [urls]. *)
Definition use_urls (v : Widgets.values) (urls : list value) : M page unit :=
  let! _ := st "subheader" [VStr "Quora Links Used:"] [] in
  let! _ := for_ urls (fun url => st "write" [url] []) in
  let! user_info_list :=
    spinner "Extracting user info from URLs..."
      (remote (extract_user_info_from_urls World firecrawl_extract
                 QuoraPageSchema_json_schema urls
                 (Widgets.firecrawl_api_key v))) in
  let! flattened_data :=
    spinner "Formatting user info..."
      (lift (format_user_info_to_flattened_json user_info_list)) in
  match flattened_data with
  | first :: rest => show_leads (Widgets.output_csv_path v) first rest
  | [] => ret tt
  end.

(** Lines 174-241: the body of [if st.button("Generate Leads")]. *)
Definition on_generate_leads (v : Widgets.values) : M page unit :=
  if negb (negb (String.eqb (Widgets.firecrawl_api_key v) "")
           && negb (String.eqb (Widgets.gemini_api_key v) "")
           && negb (String.eqb (Widgets.user_query v) ""))
  then
    st "error"
      [VStr "Please fill in the required API keys and describe what leads you're looking for."]
      []
  else
    let! resolved_model :=
      remote (choose_gemini_model World genai_list_models
                (Widgets.gemini_api_key v) (Widgets.gemini_model_id v)) in
    let! _ := st "caption"
                [VStr ("Using Gemini model: " ++ resolved_model)%string] [] in
    let! company_text :=
      spinner "Processing your query..."
        (let transform_agent :=
           create_prompt_transformation_agent (Widgets.gemini_api_key v)
             resolved_model in
         let instructions := prompt_transformation_instructions in
         let prompt :=
           transformation_prompt instructions (Widgets.user_query v) in
         let! company_description := remote (agent_run transform_agent prompt) in
         let company_text :=
           match company_description with
           | HasContent content => content
           | NoContent text => VStr text
           end in
         let! _ := st "write" [VStr "🎯 Searching for:"; company_text] [] in
         ret company_text) in
    let! urls :=
      spinner "Searching for relevant URLs..."
        (remote (search_for_urls World requests_post
                   (format_value company_text)
                   (Widgets.firecrawl_api_key v) (Widgets.num_links v))) in
    match urls with
    | _ :: _ => use_urls v urls
    | [] => st "warning" [VStr "No relevant URLs found."] []
    end.

(** Lines 152-165: the sidebar; it tells whether [st.rerun()] was
    reached. *)
Definition sidebar : Widgets.values -> M page bool :=
  fun v =>
    let! _ := st "sidebar.__enter__" [] [] in
    let! _ := st "header" [VStr "API Keys"] [] in
    let! _ := st "text_input" [VStr "Firecrawl API Key"]
                [("type", VStr "password")] in
    let! _ := st "caption"
                [VStr " Get your Firecrawl API key from [Firecrawl's website](https://www.firecrawl.dev/app/api-keys)"]
                [] in
    let! _ := st "text_input" [VStr "Gemini API Key"]
                [("type", VStr "password")] in
    let! _ := st "caption"
                [VStr " Get your Gemini API key from [Google AI Studio](https://aistudio.google.com/app/apikey)"]
                [] in
    let! _ := st "selectbox"
                [ VStr "Gemini Model";
                  VList [ VStr "Auto (recommended)"; VStr "gemini-1.5-pro";
                          VStr "gemini-1.5-flash" ] ]
                [("index", VInt 0)] in
    let! _ := st "text_input" [VStr "Output CSV filename"]
                [("value", VStr "leads.csv")] in
    let! _ := st "number_input" [VStr "Number of links to search"]
                [ ("min_value", VInt 1); ("max_value", VInt 10);
                  ("value", VInt 3) ] in
    let! _ := st "button" [VStr "Reset"] [] in
    let! _ := if Widgets.reset v then
                let! _ := st "session_state.clear" [] [] in
                st "rerun" [] []
              else ret tt in
    let! _ := st "sidebar.__exit__" [] [] in
    ret (Widgets.reset v).

Definition main (v : Widgets.values) : M page outcome :=
  let! _ := st "title" [VStr "🎯 AI Lead Generation Agent (Quora)"] [] in
  let! _ := st "info"
              [VStr "This Firecrawl-powered agent helps you generate leads from Quora by searching for relevant posts and extracting user information."]
              [] in
  let! rerun := sidebar v in
  if rerun then ret Rerun
  else
    let! _ := st "text_area"
                [VStr "Describe what kind of leads you're looking for:"]
                [ ("placeholder",
                   VStr "e.g., Looking for users who need automated video editing software with AI capabilities");
                  ("help",
                   VStr "Be specific about the product/service and target audience. The AI will convert this into a focused search query.") ] in
    let! _ := st "button" [VStr "Generate Leads"] [] in
    let! _ := if Widgets.generate_leads v then on_generate_leads v
              else ret tt in
    ret Done.

End Main.

Arguments shown {World} _.
Arguments outside {World} _.
Arguments Build_page {World} _ _.

(** The text searched for, lines 188-189. *)
Definition company_text_of (company_description : run_output) : value :=
  match company_description with
  | HasContent content => content
  | NoContent text => VStr text
  end.

Definition call (fn : string) (args : list value)
    (kwargs : list (string * value)) : st_call :=
  {| fn := fn; args := args; kwargs := kwargs |}.

(** *** The calls a run shows, stage by stage *)

Definition spinner_exit : st_call := call "spinner.__exit__" [] [].

(** Lines 178-193: the model, the query, the search. *)
Definition query_calls (resolved_model : string) (company_text : value)
    : list st_call :=
  [ call "caption" [VStr ("Using Gemini model: " ++ resolved_model)%string] [];
    call "spinner" [VStr "Processing your query..."] [];
    call "write" [VStr "🎯 Searching for:"; company_text] [];
    spinner_exit;
    call "spinner" [VStr "Searching for relevant URLs..."] [];
    spinner_exit ].

(** Lines 196-204: the links, the extraction, the formatting. *)
Definition url_calls (urls : list value) : list st_call :=
  call "subheader" [VStr "Quora Links Used:"] []
  :: map (fun url => call "write" [url] []) urls
  ++ [ call "spinner" [VStr "Extracting user info from URLs..."] [];
       spinner_exit;
       call "spinner" [VStr "Formatting user info..."] [];
       spinner_exit ].

(** Lines 207-229: the preview and the two downloads. *)
Definition lead_calls (flattened_data : list value) (csv json : string)
    : list st_call :=
  [ call "subheader" [VStr "Preview Leads"] [];
    call "dataframe" [VList flattened_data]
      [("use_container_width", VBool true)];
    call "download_button" []
      [ ("label", VStr "Download CSV");
        ("data", VStr csv);
        ("file_name", VStr "leads.csv");
        ("mime", VStr "text/csv") ];
    call "download_button" []
      [ ("label", VStr "Download JSON");
        ("data", VStr json);
        ("file_name", VStr "leads.json");
        ("mime", VStr "application/json") ] ].

(** ** Concrete inputs

    A batch of pages, a page-extraction service, a search endpoint and a
    model provider, on which the statements below are instantiated. *)

Definition sample_pages : list value :=
  [ VDict [ ("website_url", VStr "https://www.quora.com/q1");
            ("user_info",
             VList [ VDict [ ("username", VStr "alice");
                             ("post_type", VStr "question");
                             ("links", VList [VStr "https://a.example";
                                              VStr "https://b.example"]) ];
                     VDict [ ("username", VStr "bob");
                             ("upvotes", VInt 7) ] ]) ];
    VDict [ ("website_url", VStr "https://www.quora.com/q2");
            ("user_info", VList [ VDict [ ("bio", VStr "founder") ] ]) ] ].

Definition sample_response (interactions : value) : value :=
  VDict [ ("success", VBool true);
          ("status", VStr "completed");
          ("data", VDict [("interactions", interactions)]) ].

(** A service that counts its calls; it is down for one page and finds no
    interaction on another. *)
Definition sample_extract (key : string) (urls params : value)
    : M nat value :=
  fun calls =>
    match urls with
    | VList [VStr u] =>
        if String.eqb u "https://www.quora.com/down"
        then (Raise (ExternalError "HTTPError"), S calls)
        else if String.eqb u "https://www.quora.com/empty"
        then (Ok (sample_response (VList [])), S calls)
        else (Ok (sample_response (VList [VDict [("username", VStr u)]])),
              S calls)
    | _ => (Raise (ExternalError "BadRequest"), S calls)
    end.

Definition sample_urls : list value :=
  [ VStr "https://www.quora.com/q1";
    VStr "https://www.quora.com/down";
    VStr "https://www.quora.com/q2" ].

Definition flash_model : model :=
  {| name := Some "gemini-2.5-flash-001";
     supported_generation_methods := Some ["generateContent"; "countTokens"] |}.

Definition pro_model : model :=
  {| name := Some "models/gemini-1.5-pro";
     supported_generation_methods := Some ["generateContent"] |}.

(** A search endpoint that answers every request alike and logs what it is
    sent. *)
Definition sample_post (status : Z) (body : result value)
    : request -> M (list request) response :=
  fun req log =>
    (Ok {| status_code := status; json := body |}, log ++ [req]).

Definition sample_search_body : value :=
  VDict [ ("success", VBool true);
          ("data",
           VList [ VDict [ ("url", VStr "https://www.quora.com/q1");
                           ("title", VStr "first") ];
                   VDict [ ("url", VStr "https://www.quora.com/q2") ] ]) ].

Definition sample_genai : string -> M unit (list model) :=
  fun _ w => (Ok [flash_model; pro_model], w).

Definition failing_genai : string -> M unit (list model) :=
  fun _ w => (Raise (ExternalError "PermissionDenied"), w).

(** A service that answers one page with a completed response whose
    [data] is null. *)
Definition null_data_extract (key : string) (urls params : value)
    : M nat value :=
  fun calls =>
    match urls with
    | VList [VStr u] =>
        if String.eqb u "https://www.quora.com/broken"
        then (Ok (VDict [ ("success", VBool true);
                          ("status", VStr "completed");
                          ("data", VNone) ]), S calls)
        else (Ok (sample_response (VList [VDict [("username", VStr u)]])),
              S calls)
    | _ => (Raise (ExternalError "BadRequest"), S calls)
    end.

Definition broken_urls : list value :=
  [ VStr "https://www.quora.com/q1";
    VStr "https://www.quora.com/broken";
    VStr "https://www.quora.com/q2" ].

Definition failing_post : request -> M (list request) response :=
  fun req log => (Raise (ExternalError "ConnectionError"), log ++ [req]).

(** Services for a run of the page, each counting the calls made. *)
Definition demo_genai : string -> M nat (list model) :=
  fun _ calls => (Ok [flash_model; pro_model], S calls).

Definition demo_agent : agent -> string -> M nat run_output :=
  fun _ _ calls => (Ok (HasContent (VStr "AI chatbots")), S calls).

Definition failing_agent : agent -> string -> M nat run_output :=
  fun _ _ calls => (Raise (ExternalError "ResourceExhausted"), S calls).

Definition demo_post (body : value) : request -> M nat response :=
  fun _ calls => (Ok {| status_code := 200; json := Ok body |}, S calls).

Definition down_post : request -> M nat response :=
  fun _ calls => (Raise (ExternalError "ConnectionError"), S calls).

Definition down_extract (key : string) (urls params : value) : M nat value :=
  fun calls => (Raise (ExternalError "HTTPError"), S calls).

Definition demo_open : string -> M nat unit :=
  fun _ calls => (Ok tt, S calls).

Definition denied_open : string -> M nat unit :=
  fun _ calls => (Raise (ExternalError "PermissionError"), S calls).

Definition demo_write : string -> list string -> list value -> M nat unit :=
  fun _ _ _ calls => (Ok tt, S calls).

Definition demo_csv : list string -> list value -> result string :=
  fun fieldnames _ => Ok (String.concat "," fieldnames).

Definition demo_json : value -> result string :=
  fun _ => Ok "[]".

Definition demo_str : value -> string := fun _ => "None".

Definition demo_exn_str : exn -> string := fun _ => "Permission denied".

Definition demo_widgets : Widgets.values :=
  {| Widgets.firecrawl_api_key := "fc-key";
     Widgets.gemini_api_key := "gm-key";
     Widgets.gemini_model_id := "Auto (recommended)";
     Widgets.output_csv_path := "leads.csv";
     Widgets.num_links := 3;
     Widgets.reset := false;
     Widgets.user_query := "Looking for AI chatbots for e-commerce";
     Widgets.generate_leads := true |}.

Definition blank_widgets : Widgets.values :=
  {| Widgets.firecrawl_api_key := "fc-key";
     Widgets.gemini_api_key := "gm-key";
     Widgets.gemini_model_id := "Auto (recommended)";
     Widgets.output_csv_path := "leads.csv";
     Widgets.num_links := 3;
     Widgets.reset := false;
     Widgets.user_query := "";
     Widgets.generate_leads := true |}.

(** * Properties *)

(** ** The flattener *)

Lemma for_each_app {A S : Type} (l1 l2 : list A) (body : A -> S -> result S)
    (acc : S) :
  for_each (l1 ++ l2) body acc
  = let* acc' := for_each l1 body acc in for_each l2 body acc'.
Proof.
  revert acc. induction l1 as [|x l1 IH]; intros acc; simpl; [reflexivity|].
  destruct (body x acc) as [acc'|e]; simpl; [apply IH | reflexivity].
Qed.

Lemma as_strs_of_strs (l : list value) :
  forallb is_str l = true -> as_strs l = Ok (strs_of l).
Proof.
  induction l as [|v l IH]; simpl; [reflexivity|].
  destruct v; simpl; try discriminate.
  intros H. rewrite (IH H). reflexivity.
Qed.

Lemma strs_of_map_VStr (ss : list string) : strs_of (map VStr ss) = ss.
Proof.
  induction ss as [|s ss IH]; [reflexivity|].
  unfold strs_of in *. simpl. f_equal. exact IH.
Qed.

Lemma forallb_is_str_map_VStr (ss : list string) :
  forallb is_str (map VStr ss) = true.
Proof. induction ss; simpl; auto. Qed.

Lemma join_links (d : list (string * value)) :
  is_interaction (VDict d) = true ->
  join ", " (dict_get d "links" (VList []))
  = Ok (String.concat ", " (links_of d)).
Proof.
  unfold is_interaction, links_of, dict_get.
  destruct (dict_lookup d "links") as [v|]; [|reflexivity].
  destruct v; try discriminate.
  intros H. unfold join. simpl. rewrite (as_strs_of_strs _ H). reflexivity.
Qed.

Lemma flattened_interaction_record (url : value) (d : list (string * value)) :
  is_interaction (VDict d) = true ->
  flattened_interaction url (VDict d) = Ok (flat_record url d).
Proof.
  intros H. unfold flattened_interaction. simpl.
  rewrite (join_links d H). reflexivity.
Qed.

Lemma is_interaction_dict (x : value) :
  is_interaction x = true -> exists d, x = VDict d.
Proof. destruct x; try discriminate. eauto. Qed.

Lemma record_of_pair_interaction (url x : value) :
  is_interaction x = true ->
  flattened_interaction url x = Ok (record_of_pair (url, x)).
Proof.
  intros H. destruct (is_interaction_dict x H) as [d ->].
  apply flattened_interaction_record, H.
Qed.

(** The inner loop appends one record per interaction, in order. *)
Lemma inner_loop_records (url : value) (xs acc : list value) :
  forallb is_interaction xs = true ->
  for_each xs
    (fun interaction flattened_data =>
       let* r := flattened_interaction url interaction in
       Ok (flattened_data ++ [r]))
    acc
  = Ok (acc ++ map record_of_pair (map (pair url) xs)).
Proof.
  revert acc. induction xs as [|x xs IH]; intros acc H; simpl.
  - rewrite app_nil_r. reflexivity.
  - apply andb_true_iff in H as [Hx Hxs].
    rewrite (record_of_pair_interaction url x Hx). simpl.
    rewrite (IH _ Hxs), <- app_assoc. reflexivity.
Qed.

Lemma flatten_page_records (info : value) (acc : list value) :
  is_page_extraction info = true ->
  flatten_page info acc
  = Ok (acc ++ map record_of_pair
                 (map (pair (page_url info)) (page_interactions info))).
Proof.
  destruct info as [| | | | | |d]; try discriminate.
  unfold is_page_extraction, flatten_page, page_url, page_interactions,
    getitem, dict_get.
  destruct (dict_lookup d "website_url") as [u|]; [|discriminate].
  destruct (dict_lookup d "user_info") as [ui|]; [|discriminate].
  destruct ui; try discriminate.
  intros H. simpl. apply inner_loop_records, H.
Qed.

Lemma flatten_from (pages acc : list value) :
  forallb is_page_extraction pages = true ->
  for_each pages flatten_page acc
  = Ok (acc ++ map record_of_pair (pairs pages)).
Proof.
  revert acc. induction pages as [|p pages IH]; intros acc H; simpl.
  - rewrite app_nil_r. reflexivity.
  - apply andb_true_iff in H as [Hp Hps].
    rewrite (flatten_page_records p acc Hp). simpl.
    rewrite (IH _ Hps), <- app_assoc.
    unfold pairs. simpl. rewrite map_app. reflexivity.
Qed.

Lemma flatten_records (pages : list value) :
  forallb is_page_extraction pages = true ->
  format_user_info_to_flattened_json pages
  = Ok (map record_of_pair (pairs pages)).
Proof. intros H. apply (flatten_from pages [] H). Qed.

Lemma length_pairs (pages : list value) :
  List.length (pairs pages) = list_sum (map interaction_count pages).
Proof.
  induction pages as [|p pages IH]; [reflexivity|].
  unfold pairs in *. simpl. rewrite length_app, !length_map, IH.
  reflexivity.
Qed.

Lemma pairs_interaction (pages : list value) (i : nat) (url x : value) :
  forallb is_page_extraction pages = true ->
  pairs pages !! i = Some (url, x) ->
  is_interaction x = true.
Proof.
  intros H Hi. apply list_elem_of_lookup_2 in Hi.
  unfold pairs in Hi. apply list_elem_of_In, in_flat_map in Hi.
  destruct Hi as (p & Hp & Hin).
  apply in_map_iff in Hin as (x' & [= <- <-] & Hx).
  rewrite forallb_forall in H. specialize (H p Hp).
  destruct p as [| | | | | |d]; try discriminate.
  unfold is_page_extraction in H. unfold page_interactions in Hx.
  destruct (dict_lookup d "website_url"); [|discriminate].
  destruct (dict_lookup d "user_info") as [ui|]; [|discriminate].
  destruct ui; try discriminate.
  rewrite forallb_forall in H. apply H, Hx.
Qed.

(** C1: on a sequence of PageExtraction entries
    [format_user_info_to_flattened_json] returns a list whose length is the
    sum of the lengths of the entries' interaction lists. *)
Theorem flatten_length (pages : list value) :
  forallb is_page_extraction pages = true ->
  exists out,
    format_user_info_to_flattened_json pages = Ok out
    /\ List.length out = list_sum (map interaction_count pages).
Proof.
  intros H. exists (map record_of_pair (pairs pages)). split.
  - apply flatten_records, H.
  - rewrite length_map. apply length_pairs.
Qed.

Lemma flatten_length_witness :
  exists out,
    format_user_info_to_flattened_json sample_pages = Ok out
    /\ List.length out = list_sum (map interaction_count sample_pages).
Proof. apply (flatten_length sample_pages). reflexivity. Defined.

(** C4: [format_user_info_to_flattened_json] preserves order.  With the
    pages traversed in order and the interactions of each page in order, the
    i-th record carries the url of the i-th (page, interaction) pair under
    [Website URL] and that interaction's fields under the other keys. *)
Theorem flatten_order (pages : list value) :
  forallb is_page_extraction pages = true ->
  exists out,
    format_user_info_to_flattened_json pages = Ok out
    /\ List.length out = List.length (pairs pages)
    /\ forall (i : nat) (url x : value),
         pairs pages !! i = Some (url, x) ->
         exists d r,
           x = VDict d
           /\ out !! i = Some (VDict r)
           /\ dict_lookup r "Website URL" = Some url
           /\ dict_lookup r "Username"
              = Some (dict_get d "username" (VStr ""))
           /\ dict_lookup r "Bio" = Some (dict_get d "bio" (VStr ""))
           /\ dict_lookup r "Post Type"
              = Some (dict_get d "post_type" (VStr ""))
           /\ dict_lookup r "Timestamp"
              = Some (dict_get d "timestamp" (VStr ""))
           /\ dict_lookup r "Upvotes" = Some (dict_get d "upvotes" (VInt 0))
           /\ dict_lookup r "Links"
              = Some (VStr (String.concat ", " (links_of d))).
Proof.
  intros H. exists (map record_of_pair (pairs pages)).
  split; [apply flatten_records, H|].
  split; [apply length_map|].
  intros i url x Hi.
  destruct (is_interaction_dict x (pairs_interaction pages i url x H Hi))
    as [d ->].
  exists d. eexists. split; [reflexivity|]. split.
  - rewrite list_lookup_fmap, Hi. reflexivity.
  - repeat split.
Qed.

Lemma flatten_order_witness :
  exists out,
    format_user_info_to_flattened_json sample_pages = Ok out
    /\ List.length out = List.length (pairs sample_pages)
    /\ forall (i : nat) (url x : value),
         pairs sample_pages !! i = Some (url, x) ->
         exists d r,
           x = VDict d
           /\ out !! i = Some (VDict r)
           /\ dict_lookup r "Website URL" = Some url
           /\ dict_lookup r "Username"
              = Some (dict_get d "username" (VStr ""))
           /\ dict_lookup r "Bio" = Some (dict_get d "bio" (VStr ""))
           /\ dict_lookup r "Post Type"
              = Some (dict_get d "post_type" (VStr ""))
           /\ dict_lookup r "Timestamp"
              = Some (dict_get d "timestamp" (VStr ""))
           /\ dict_lookup r "Upvotes" = Some (dict_get d "upvotes" (VInt 0))
           /\ dict_lookup r "Links"
              = Some (VStr (String.concat ", " (links_of d))).
Proof. apply (flatten_order sample_pages). reflexivity. Defined.

(** C5: the record built for an interaction dict.  A missing [username],
    [bio], [post_type] or [timestamp] becomes the empty str, a missing
    [upvotes] becomes 0, and [links] (the empty list when missing) becomes
    the str that joins its elements with [", "]. *)
Theorem flattened_interaction_defaults (url : value)
    (d : list (string * value)) (ss : list string) :
  dict_get d "links" (VList []) = VList (map VStr ss) ->
  exists r,
    flattened_interaction url (VDict d) = Ok (VDict r)
    /\ dict_lookup r "Links" = Some (VStr (String.concat ", " ss))
    /\ (dict_lookup d "links" = None -> dict_lookup r "Links" = Some (VStr ""))
    /\ (dict_lookup d "username" = None ->
        dict_lookup r "Username" = Some (VStr ""))
    /\ (dict_lookup d "bio" = None -> dict_lookup r "Bio" = Some (VStr ""))
    /\ (dict_lookup d "post_type" = None ->
        dict_lookup r "Post Type" = Some (VStr ""))
    /\ (dict_lookup d "timestamp" = None ->
        dict_lookup r "Timestamp" = Some (VStr ""))
    /\ (dict_lookup d "upvotes" = None ->
        dict_lookup r "Upvotes" = Some (VInt 0)).
Proof.
  intros Hl. unfold flattened_interaction. simpl. rewrite Hl.
  unfold join. simpl.
  rewrite (as_strs_of_strs _ (forallb_is_str_map_VStr ss)), strs_of_map_VStr.
  simpl. eexists. split; [reflexivity|]. simpl.
  split; [reflexivity|].
  split.
  { intros Hn. unfold dict_get in Hl. rewrite Hn in Hl.
    destruct ss; [reflexivity | discriminate]. }
  unfold dict_get.
  repeat split; intros ->; reflexivity.
Qed.

Lemma flattened_interaction_defaults_witness :
  exists r,
    flattened_interaction (VStr "https://www.quora.com/q1")
      (VDict [("username", VStr "alice")]) = Ok (VDict r)
    /\ dict_lookup r "Links" = Some (VStr (String.concat ", " []))
    /\ (dict_lookup [("username", VStr "alice")] "links" = None ->
        dict_lookup r "Links" = Some (VStr ""))
    /\ (dict_lookup [("username", VStr "alice")] "username" = None ->
        dict_lookup r "Username" = Some (VStr ""))
    /\ (dict_lookup [("username", VStr "alice")] "bio" = None ->
        dict_lookup r "Bio" = Some (VStr ""))
    /\ (dict_lookup [("username", VStr "alice")] "post_type" = None ->
        dict_lookup r "Post Type" = Some (VStr ""))
    /\ (dict_lookup [("username", VStr "alice")] "timestamp" = None ->
        dict_lookup r "Timestamp" = Some (VStr ""))
    /\ (dict_lookup [("username", VStr "alice")] "upvotes" = None ->
        dict_lookup r "Upvotes" = Some (VInt 0)).
Proof.
  apply (flattened_interaction_defaults (VStr "https://www.quora.com/q1")
           [("username", VStr "alice")] []).
  reflexivity.
Defined.

(** ** The structured extractor *)

Lemma accept_response_acc (url response : value) (acc : list value) :
  accept_response url response acc
  = match accept_response url response [] with
    | Ok l => Ok (acc ++ l)
    | Raise e => Raise e
    end.
Proof.
  unfold accept_response.
  destruct (get response "success" VNone) as [success|e]; simpl;
    [|reflexivity].
  destruct (truthy success); simpl.
  - destruct (get response "status" VNone) as [status|e]; simpl;
      [|reflexivity].
    destruct (eq_str status "completed"); simpl.
    + destruct (get response "data" (VDict [])) as [data|e]; simpl;
        [|reflexivity].
      destruct (get data "interactions" (VList [])) as [ints|e]; simpl;
        [|reflexivity].
      destruct (truthy ints); [reflexivity|].
      rewrite app_nil_r. reflexivity.
    + rewrite app_nil_r. reflexivity.
  - rewrite app_nil_r. reflexivity.
Qed.

Lemma accept_response_entry (url response : value) :
  step_raises (url, Ok response) = false ->
  accept_response url response []
  = Ok (option_list (entry_of (url, Ok response))).
Proof.
  unfold step_raises, entry_of, succeeded, accept_response.
  destruct response as [| | | | | |r]; simpl; try discriminate.
  destruct (truthy (dict_get r "success" VNone)); simpl; [|reflexivity].
  destruct (eq_str (dict_get r "status" VNone) "completed"); simpl;
    [|reflexivity].
  destruct (dict_get r "data" (VDict [])) as [| | | | | |d]; simpl;
    try discriminate.
  destruct (truthy (dict_get d "interactions" (VList []))); reflexivity.
Qed.

Lemma completed_steps_prefix (t : list (value * result value)) :
  completed_steps t `prefix_of` t.
Proof.
  induction t as [|c t IH]; simpl; [reflexivity|].
  destruct (step_raises c); [apply prefix_nil | apply prefix_cons, IH].
Qed.

Lemma completed_steps_all (t : list (value * result value)) :
  Forall (fun c => step_raises c = false) t -> completed_steps t = t.
Proof.
  induction 1 as [|c t Hc _ IH]; simpl; [reflexivity|].
  rewrite Hc, IH. reflexivity.
Qed.

Lemma completed_steps_take (t : list (value * result value)) (k : nat)
    (c : value * result value) :
  t !! k = Some c ->
  step_raises c = true ->
  (forall j c', j < k -> t !! j = Some c' -> step_raises c' = false) ->
  completed_steps t = take k t.
Proof.
  revert k. induction t as [|c0 t IH]; intros k Hk Hc Hbefore.
  - discriminate.
  - destruct k as [|k]; simpl in *.
    + injection Hk as ->. rewrite Hc. reflexivity.
    + rewrite (Hbefore 0 c0 ltac:(lia) eq_refl). f_equal.
      apply IH; [exact Hk | exact Hc |].
      intros j c' Hj Hl. apply (Hbefore (S j) c'); [lia | exact Hl].
Qed.

Lemma entry_of_url (c : value * result value) (e : value) :
  entry_of c = Some e -> page_url e = fst c.
Proof.
  destruct c as [url [response|ex]]; simpl; [|discriminate].
  destruct (succeeded response) as [ints|]; [|discriminate].
  destruct (truthy ints); [|discriminate].
  intros [= <-]. reflexivity.
Qed.

Lemma entries_sublist (cs : list (value * result value)) :
  map page_url (omap entry_of cs) `sublist_of` map fst cs.
Proof.
  induction cs as [|c cs IH]; simpl; [reflexivity|].
  destruct (entry_of c) as [e|] eqn:He; simpl.
  - rewrite (entry_of_url c e He). apply sublist_skip, IH.
  - apply sublist_cons, IH.
Qed.

Section ExtractionProperties.

Context {World : Type}.
Variable firecrawl_extract : string -> value -> value -> M World value.
Variable schema : value.

Abbreviation trace := (service_trace World firecrawl_extract schema).
Abbreviation extract :=
  (extract_user_info_from_urls World firecrawl_extract schema).

Lemma service_trace_urls (key : string) (urls : list value) (w : World) :
  map fst (trace key urls w) = urls.
Proof.
  revert w. induction urls as [|u urls IH]; intros w; simpl; [reflexivity|].
  destruct (firecrawl_extract key (VList [u]) (extract_params schema) w)
    as [r w'].
  simpl. f_equal. apply IH.
Qed.

Lemma service_trace_take (key : string) (urls : list value) (w : World)
    (k : nat) :
  take k (trace key urls w) = trace key (take k urls) w.
Proof.
  revert w k. induction urls as [|u urls IH]; intros w k; simpl.
  - destruct k; reflexivity.
  - destruct k as [|k]; simpl; destruct
      (firecrawl_extract key (VList [u]) (extract_params schema) w)
      as [r w']; [reflexivity|].
    simpl. f_equal. apply IH.
Qed.

(** The loop, from any store: the list grows by the entries of the steps
    completed before the first one that raises. *)
Lemma loop_entries (key : string) (urls : list value) (acc : list value)
    (w : World) :
  user_info_list
    (snd (for_ urls (extract_body World firecrawl_extract schema key)
            (Build_store acc w)))
  = acc ++ omap entry_of (completed_steps (trace key urls w)).
Proof.
  revert acc w. induction urls as [|u urls IH]; intros acc w; simpl.
  - rewrite app_nil_r. reflexivity.
  - unfold bindM at 1. unfold extract_body at 1. unfold bindM at 1.
    unfold call_extract. simpl.
    destruct (firecrawl_extract key (VList [u]) (extract_params schema) w)
      as [[response|e] w']; simpl.
    + unfold update_list. simpl. rewrite accept_response_acc.
      destruct (accept_response u response []) as [l|e] eqn:Hacc; simpl.
      * assert (Hs : step_raises (u, Ok response) = false)
          by (simpl; rewrite Hacc; reflexivity).
        rewrite IH. rewrite (accept_response_entry u response Hs) in Hacc.
        injection Hacc as <-.
        simpl. destruct (succeeded response) as [ints|]; simpl.
        -- destruct (truthy ints); simpl; rewrite <- app_assoc; reflexivity.
        -- rewrite <- app_assoc. reflexivity.
      * rewrite app_nil_r. reflexivity.
    + rewrite app_nil_r. reflexivity.
Qed.

Lemma extract_entries (key : string) (urls : list value) (w : World) :
  fst (extract urls key w)
  = Ok (omap entry_of (completed_steps (trace key urls w))).
Proof.
  unfold extract_user_info_from_urls, try_pass.
  pose proof (loop_entries key urls [] w) as H.
  destruct (for_ urls (extract_body World firecrawl_extract schema key)
              (Build_store [] w)) as [[[]|e] s]; simpl in *;
    rewrite H; reflexivity.
Qed.


(** C10: when the call for the URL at position [k] raises (the steps
    before it having completed), [extract_user_info_from_urls] returns
    normally, and what it returns is the entries of the calls before
    position [k], the same list as for the batch cut before [k]. *)
Theorem extract_exception_keeps_earlier (key : string) (urls : list value)
    (w : World) (k : nat) (url : value) (e : exn) :
  trace key urls w !! k = Some (url, Raise e) ->
  (forall j c, j < k -> trace key urls w !! j = Some c ->
               step_raises c = false) ->
  fst (extract urls key w)
  = Ok (omap entry_of (take k (trace key urls w)))
  /\ fst (extract urls key w) = fst (extract (take k urls) key w).
Proof.
  intros Hk Hbefore.
  assert (Hall : Forall (fun c => step_raises c = false)
                   (take k (trace key urls w))).
  { apply Forall_lookup_2. intros j c Hj.
    apply lookup_take_Some in Hj as [Hj Hlt]. eapply Hbefore; eauto. }
  rewrite !extract_entries.
  rewrite (completed_steps_take _ k _ Hk eq_refl Hbefore).
  split; [reflexivity|].
  rewrite <- service_trace_take, (completed_steps_all _ Hall).
  reflexivity.
Qed.

End ExtractionProperties.

Lemma extract_exception_keeps_earlier_witness :
  fst (extract_user_info_from_urls nat sample_extract VNone sample_urls
         "key" 0)
  = Ok (omap entry_of
          (take 1 (service_trace nat sample_extract VNone "key"
                     sample_urls 0)))
  /\ fst (extract_user_info_from_urls nat sample_extract VNone sample_urls
            "key" 0)
     = fst (extract_user_info_from_urls nat sample_extract VNone
              (take 1 sample_urls) "key" 0).
Proof.
  apply (extract_exception_keeps_earlier sample_extract VNone "key"
           sample_urls 0 1 (VStr "https://www.quora.com/down")
           (ExternalError "HTTPError")).
  - reflexivity.
  - intros j c Hj Hl. destruct j as [|j]; [|lia].
    injection Hl as <-. reflexivity.
Defined.

(** C2, on the code: a call that raises ends the batch.  The page [q2] is
    extracted when it is asked for alone and is missing from the result
    when it follows a page whose call raises. *)
Theorem extract_stops_at_first_exception :
  fst (extract_user_info_from_urls nat sample_extract VNone
         [VStr "https://www.quora.com/q2"] "key" 1)
  = Ok [ VDict [ ("website_url", VStr "https://www.quora.com/q2");
                 ("user_info",
                  VList [VDict [("username",
                                 VStr "https://www.quora.com/q2")]]) ] ]
  /\ fst (extract_user_info_from_urls nat sample_extract VNone
            [VStr "https://www.quora.com/down";
             VStr "https://www.quora.com/q2"] "key" 0)
     = Ok [].
Proof. split; reflexivity. Qed.


(** ** Link discovery *)

Lemma comprehension_urls (entries : list (list (string * value))) :
  Forall (fun e => is_Some (dict_lookup e "url")) entries ->
  comprehension (fun result => getitem result "url") (map VDict entries)
  = Ok (map (fun e => dict_get e "url" VNone) entries).
Proof.
  induction 1 as [|e entries [u Hu] _ IH]; simpl; [reflexivity|].
  unfold dict_get. rewrite Hu. simpl. rewrite IH. reflexivity.
Qed.

(** C3, as amended: when the search answers with a status other than 200,
    or with a 200 answer whose body is a JSON object whose [success] is
    absent or not true, [search_for_urls] returns the empty list and does
    not raise. *)
Theorem search_failure_is_empty {World : Type}
    (requests_post : request -> M World response)
    (company_description firecrawl_api_key : string) (num_links : Z)
    (w w' : World) (resp : response) :
  requests_post
    (search_request company_description firecrawl_api_key num_links) w
  = (Ok resp, w') ->
  (status_code resp <> 200%Z
   \/ exists d, json resp = Ok (VDict d)
                /\ truthy (dict_get d "success" VNone) = false) ->
  search_for_urls World requests_post company_description firecrawl_api_key
    num_links w
  = (Ok [], w').
Proof.
  intros Hpost Hfail. unfold search_for_urls, bindM, lift. rewrite Hpost.
  f_equal. unfold urls_of_response.
  destruct (Z.eqb_spec (status_code resp) 200) as [Heq|Hne]; [|reflexivity].
  destruct Hfail as [Hne|(d & Hjson & Hflag)]; [contradiction|].
  rewrite Hjson. simpl. rewrite Hflag. reflexivity.
Qed.

(** C7: [search_for_urls] posts one request, to the search endpoint, whose
    JSON body has the query built around the topic, the caller's limit,
    lang [en], location [United States] and timeout 60000 (milliseconds);
    from a successful answer it returns the [url] of each result entry, in
    the order of the answer. *)
Theorem search_request_and_urls {World : Type}
    (requests_post : request -> M World response)
    (topic firecrawl_api_key : string) (num_links : Z) (w : World) :
  req_url (search_request topic firecrawl_api_key num_links)
  = "https://api.firecrawl.dev/v1/search"
  /\ req_json (search_request topic firecrawl_api_key num_links)
     = VDict [ ("query",
                VStr ("quora websites where people are looking for "
                        ++ topic ++ " services")%string);
               ("limit", VInt num_links);
               ("lang", VStr "en");
               ("location", VStr "United States");
               ("timeout", VInt (60 * 1000)) ]
  /\ search_for_urls World requests_post topic firecrawl_api_key num_links w
     = (let (r, w') :=
          requests_post (search_request topic firecrawl_api_key num_links) w
        in (bind r urls_of_response, w'))
  /\ forall (resp : response) (w' : World) (d : list (string * value))
            (entries : list (list (string * value))),
       requests_post (search_request topic firecrawl_api_key num_links) w
       = (Ok resp, w') ->
       status_code resp = 200%Z ->
       json resp = Ok (VDict d) ->
       truthy (dict_get d "success" VNone) = true ->
       dict_get d "data" (VList []) = VList (map VDict entries) ->
       Forall (fun e => is_Some (dict_lookup e "url")) entries ->
       search_for_urls World requests_post topic firecrawl_api_key
         num_links w
       = (Ok (map (fun e => dict_get e "url" VNone) entries), w').
Proof.
  split; [reflexivity|]. split; [reflexivity|].
  assert (Hrun :
    search_for_urls World requests_post topic firecrawl_api_key num_links w
    = (let (r, w') :=
         requests_post (search_request topic firecrawl_api_key num_links) w
       in (bind r urls_of_response, w'))).
  { unfold search_for_urls, bindM, lift.
    destruct (requests_post _ w) as [[resp|e] w']; reflexivity. }
  split; [exact Hrun|].
  intros resp w' d entries Hpost Hst Hjson Hflag Hdata Hurls.
  rewrite Hrun, Hpost. simpl. f_equal.
  unfold urls_of_response. rewrite Hst, Hjson. simpl.
  rewrite Hflag, Hdata. simpl. apply comprehension_urls, Hurls.
Qed.

Lemma search_failure_is_empty_witness :
  search_for_urls (list request)
    (sample_post 200 (Ok (VDict [("success", VBool false)])))
    "AI chatbots" "fc-key" 3 []
  = (Ok [], [search_request "AI chatbots" "fc-key" 3]).
Proof.
  apply (search_failure_is_empty
           (sample_post 200 (Ok (VDict [("success", VBool false)])))
           "AI chatbots" "fc-key" 3 []
           [search_request "AI chatbots" "fc-key" 3]
           {| status_code := 200;
              json := Ok (VDict [("success", VBool false)]) |}).
  - reflexivity.
  - right. exists [("success", VBool false)]. split; reflexivity.
Defined.

(** C3, as stated, fails: a 200 answer whose body does not parse, or is a
    JSON array, holds no true [success] flag, and [search_for_urls] raises
    on it (lines 41-42 are not inside a [try]). *)
Lemma search_failure_is_empty_counterexample :
  lacks_true_success
    {| status_code := 200;
       json := Raise (ExternalError "JSONDecodeError") |} = true
  /\ search_for_urls (list request)
       (sample_post 200 (Raise (ExternalError "JSONDecodeError")))
       "AI chatbots" "fc-key" 3 []
     = (Raise (ExternalError "JSONDecodeError"),
        [search_request "AI chatbots" "fc-key" 3])
  /\ lacks_true_success
       {| status_code := 200; json := Ok (VList []) |} = true
  /\ search_for_urls (list request) (sample_post 200 (Ok (VList [])))
       "AI chatbots" "fc-key" 3 []
     = (Raise AttributeError, [search_request "AI chatbots" "fc-key" 3])
  /\ ~ (forall (requests_post : request -> M (list request) response)
               (resp : response) (w w' : list request),
          requests_post (search_request "AI chatbots" "fc-key" 3) w
          = (Ok resp, w') ->
          status_code resp <> 200%Z \/ lacks_true_success resp = true ->
          search_for_urls (list request) requests_post "AI chatbots"
            "fc-key" 3 w
          = (Ok [], w')).
Proof.
  repeat split.
  intros H.
  specialize (H (sample_post 200 (Ok (VList [])))
                {| status_code := 200; json := Ok (VList []) |}
                [] [search_request "AI chatbots" "fc-key" 3]
                eq_refl (or_intror eq_refl)).
  discriminate H.
Qed.

Lemma search_request_and_urls_witness :
  req_json (search_request "AI chatbots" "fc-key" 3)
  = VDict [ ("query",
             VStr "quora websites where people are looking for AI chatbots services");
            ("limit", VInt 3);
            ("lang", VStr "en");
            ("location", VStr "United States");
            ("timeout", VInt 60000) ]
  /\ search_for_urls (list request) (sample_post 200 (Ok sample_search_body))
       "AI chatbots" "fc-key" 3 []
     = (Ok [VStr "https://www.quora.com/q1"; VStr "https://www.quora.com/q2"],
        [search_request "AI chatbots" "fc-key" 3]).
Proof.
  destruct (search_request_and_urls
              (sample_post 200 (Ok sample_search_body))
              "AI chatbots" "fc-key" 3 []) as (_ & Hjson & _ & Hurls).
  split; [exact Hjson|].
  apply (Hurls {| status_code := 200; json := Ok sample_search_body |}
           [search_request "AI chatbots" "fc-key" 3]
           [ ("success", VBool true);
             ("data",
              VList [ VDict [ ("url", VStr "https://www.quora.com/q1");
                              ("title", VStr "first") ];
                      VDict [ ("url", VStr "https://www.quora.com/q2") ] ]) ]
           [ [ ("url", VStr "https://www.quora.com/q1");
               ("title", VStr "first") ];
             [ ("url", VStr "https://www.quora.com/q2") ] ]);
    try reflexivity.
  repeat (constructor; [eexists; reflexivity|]). constructor.
Defined.

(** ** Model selection *)

Lemma find_existsb {A : Type} (f : A -> bool) (l : list A) :
  existsb f l = true -> exists a, List.find f l = Some a.
Proof.
  induction l as [|x l IH]; simpl; [discriminate|].
  destruct (f x); [eauto | exact IH].
Qed.

(** The [next] of line 145 always finds a model: no [StopIteration]. *)
Lemma pick_by_priority_returns (prio available : list string) :
  exists m, pick_by_priority prio available = Ok m.
Proof.
  induction prio as [|pid prio IH]; simpl; [eauto|].
  destruct (existsb (contains pid) available) eqn:He; [|exact IH].
  destruct (find_existsb _ _ He) as [a ->]. eauto.
Qed.

Lemma pick_by_priority_no_match (prio available : list string) :
  (forall pid, In pid prio -> existsb (contains pid) available = false) ->
  pick_by_priority prio available = Ok "gemini-1.5-pro".
Proof.
  induction prio as [|pid prio IH]; intros H; simpl; [reflexivity|].
  rewrite (H pid (or_introl eq_refl)).
  apply IH. intros p Hp. apply H. right. exact Hp.
Qed.

Lemma choose_auto_listed {World : Type}
    (genai_list_models : string -> M World (list model))
    (api_key : string) (w w' : World) (models : list model) :
  genai_list_models api_key w = (Ok models, w') ->
  choose_gemini_model World genai_list_models api_key auto_choice w
  = (pick_by_priority priority (collect_names models []), w').
Proof.
  intros Hlist.
  unfold choose_gemini_model. rewrite String.eqb_refl. cbn [negb].
  unfold bindM, list_available_gemini_models, lift.
  rewrite Hlist. reflexivity.
Qed.

(** C8: with the choice [Auto (recommended)] and the available models
    [gemini-2.5-flash-001] and [models/gemini-1.5-pro], the resolution
    returns [gemini-2.5-flash-001]: both for lines 135-146 run on that list
    and for [choose_gemini_model] on a provider that lists models of these
    names. *)
Theorem choose_auto_flash :
  pick_by_priority priority ["gemini-2.5-flash-001"; "models/gemini-1.5-pro"]
  = Ok "gemini-2.5-flash-001"
  /\ forall (World : Type) (genai_list_models : string -> M World (list model))
            (api_key : string) (w w' : World),
       genai_list_models api_key w = (Ok [flash_model; pro_model], w') ->
       choose_gemini_model World genai_list_models api_key auto_choice w
       = (Ok "gemini-2.5-flash-001", w').
Proof.
  split; [reflexivity|].
  intros World genai api_key w w' Hlist.
  rewrite (choose_auto_listed _ _ _ _ _ Hlist). reflexivity.
Qed.

(** C9: a choice other than [Auto (recommended)] is returned as it is, with
    no call to the provider; in auto mode, when the listing raises, when it
    yields no usable model, or when no listed name contains an entry of the
    priority list, the result is [gemini-1.5-pro]. *)
Theorem choose_explicit_or_default {World : Type}
    (genai_list_models : string -> M World (list model))
    (api_key choice : string) (w : World) :
  (choice <> auto_choice ->
   choose_gemini_model World genai_list_models api_key choice w
   = (Ok choice, w))
  /\ (forall e w',
        genai_list_models api_key w = (Raise e, w') ->
        list_available_gemini_models World genai_list_models api_key w
        = (Ok [], w')
        /\ choose_gemini_model World genai_list_models api_key auto_choice w
           = (Ok "gemini-1.5-pro", w'))
  /\ (forall models w',
        genai_list_models api_key w = (Ok models, w') ->
        collect_names models [] = [] ->
        choose_gemini_model World genai_list_models api_key auto_choice w
        = (Ok "gemini-1.5-pro", w'))
  /\ (forall models w',
        genai_list_models api_key w = (Ok models, w') ->
        (forall pid, In pid priority ->
           existsb (contains pid) (collect_names models []) = false) ->
        choose_gemini_model World genai_list_models api_key auto_choice w
        = (Ok "gemini-1.5-pro", w')).
Proof.
  split; [|split; [|split]].
  - intros Hne. unfold choose_gemini_model.
    destruct (String.eqb_spec choice auto_choice) as [Heq|_];
      [contradiction|reflexivity].
  - intros e w' Hlist.
    unfold choose_gemini_model, bindM, list_available_gemini_models. simpl.
    rewrite Hlist. split; reflexivity.
  - intros models w' Hlist Hnames.
    rewrite (choose_auto_listed _ _ _ _ _ Hlist), Hnames. reflexivity.
  - intros models w' Hlist Hno.
    rewrite (choose_auto_listed _ _ _ _ _ Hlist). f_equal.
    apply pick_by_priority_no_match, Hno.
Qed.

Lemma choose_auto_flash_witness :
  choose_gemini_model unit sample_genai "key" auto_choice tt
  = (Ok "gemini-2.5-flash-001", tt).
Proof.
  apply (proj2 choose_auto_flash unit sample_genai "key" tt tt).
  reflexivity.
Defined.

Lemma choose_explicit_or_default_witness :
  choose_gemini_model unit failing_genai "key" "gemini-1.5-flash" tt
  = (Ok "gemini-1.5-flash", tt)
  /\ choose_gemini_model unit failing_genai "key" auto_choice tt
     = (Ok "gemini-1.5-pro", tt).
Proof.
  destruct (choose_explicit_or_default failing_genai "key"
              "gemini-1.5-flash" tt) as (Hexplicit & Hraise & _).
  split.
  - apply Hexplicit. discriminate.
  - apply (Hraise (ExternalError "PermissionDenied") tt). reflexivity.
Defined.

(** ** The stages in sequence

    Two URLs are found, the first yields one interaction and the second
    none: the flattened output has one record, which carries the first
    URL. *)
Example pipeline_scenario :
  bind
    (fst (extract_user_info_from_urls nat sample_extract VNone
            [VStr "https://www.quora.com/q1";
             VStr "https://www.quora.com/empty"] "key" 0))
    format_user_info_to_flattened_json
  = Ok [ VDict [ ("Website URL", VStr "https://www.quora.com/q1");
                 ("Username", VStr "https://www.quora.com/q1");
                 ("Bio", VStr "");
                 ("Post Type", VStr "");
                 ("Timestamp", VStr "");
                 ("Upvotes", VInt 0);
                 ("Links", VStr "") ] ].
Proof. reflexivity. Qed.

(** * Further properties *)

(** ** The flattener on any input *)

(** A loop whose body only appends can be run from the empty list. *)
Lemma for_each_appends {A B : Type} (body : A -> list B -> result (list B))
    (xs : list A) (acc : list B) :
  (forall x acc,
     body x acc = match body x [] with
                  | Ok l => Ok (acc ++ l)
                  | Raise e => Raise e
                  end) ->
  for_each xs body acc
  = match for_each xs body [] with
    | Ok l => Ok (acc ++ l)
    | Raise e => Raise e
    end.
Proof.
  intros Hbody. revert acc.
  induction xs as [|x xs IH]; intros acc; simpl.
  - rewrite app_nil_r. reflexivity.
  - rewrite (Hbody x acc). destruct (body x []) as [l|e]; simpl;
      [|reflexivity].
    rewrite (IH (acc ++ l)), (IH l).
    destruct (for_each xs body []) as [l'|e]; [|reflexivity].
    rewrite app_assoc. reflexivity.
Qed.

Lemma flatten_page_appends (info : value) (acc : list value) :
  flatten_page info acc
  = match flatten_page info [] with
    | Ok l => Ok (acc ++ l)
    | Raise e => Raise e
    end.
Proof.
  unfold flatten_page.
  destruct (getitem info "website_url") as [url|e]; simpl; [|reflexivity].
  destruct (getitem info "user_info") as [ui|e]; simpl; [|reflexivity].
  destruct (iter ui) as [xs|e]; simpl; [|reflexivity].
  apply for_each_appends. intros x a.
  destruct (flattened_interaction url x); reflexivity.
Qed.

(** The records of a page, one per item, when the page is flattened. *)
Lemma flatten_page_items (info : value) (acc out : list value) :
  flatten_page info acc = Ok out ->
  exists url rs,
    getitem info "website_url" = Ok url
    /\ out = acc ++ rs
    /\ Forall2 (fun x r => flattened_interaction url x = Ok r)
         (page_items info) rs.
Proof.
  unfold flatten_page, page_items.
  destruct (getitem info "website_url") as [url|e]; simpl; [|discriminate].
  destruct (getitem info "user_info") as [ui|e]; simpl; [|discriminate].
  destruct (iter ui) as [xs|e]; simpl; [|discriminate].
  intros H. exists url. revert acc H.
  induction xs as [|x xs IH]; intros acc H; simpl in H.
  - injection H as <-. exists []. rewrite app_nil_r. auto.
  - destruct (flattened_interaction url x) as [r|e] eqn:Hr; simpl in H;
      [|discriminate].
    destruct (IH _ H) as (rs & _ & -> & Hrs).
    exists (r :: rs). rewrite <- app_assoc. auto.
Qed.

Lemma flatten_items (pages acc out : list value) :
  for_each pages flatten_page acc = Ok out ->
  exists rss,
    out = acc ++ concat rss
    /\ Forall2
         (fun info rs =>
            exists url,
              getitem info "website_url" = Ok url
              /\ Forall2 (fun x r => flattened_interaction url x = Ok r)
                   (page_items info) rs)
         pages rss.
Proof.
  revert acc. induction pages as [|p pages IH]; intros acc H; simpl in H.
  - injection H as <-. exists []. simpl. rewrite app_nil_r. auto.
  - destruct (flatten_page p acc) as [acc'|e] eqn:Hp; simpl in H;
      [|discriminate].
    destruct (flatten_page_items p acc acc' Hp) as (url & rs & Hu & -> & Hrs).
    destruct (IH _ H) as (rss & -> & Hrss).
    exists (rs :: rss). simpl. rewrite <- app_assoc. split; [reflexivity|].
    constructor; eauto.
Qed.

Lemma flattened_interaction_shape (url x r : value) :
  flattened_interaction url x = Ok r ->
  exists fields joined,
    r = VDict fields
    /\ map fst fields = record_keys
    /\ dict_lookup fields "Website URL" = Some url
    /\ dict_lookup fields "Links" = Some (VStr joined).
Proof.
  unfold flattened_interaction.
  destruct x as [| | | | | |d]; try discriminate. simpl.
  destruct (join ", " (dict_get d "links" (VList []))) as [joined|e];
    simpl; [|discriminate].
  intros [= <-]. eexists. exists joined. repeat split.
Qed.

(** X1: whatever the input, each record of a returned list is a dict with
    the same seven keys in the same order, [Website URL] first and [Links]
    last, and its [Links] is a str. *)
Theorem flatten_record_keys (pages out : list value) :
  format_user_info_to_flattened_json pages = Ok out ->
  Forall
    (fun r =>
       exists fields joined,
         r = VDict fields
         /\ map fst fields = record_keys
         /\ dict_lookup fields "Links" = Some (VStr joined))
    out.
Proof.
  intros H. destruct (flatten_items pages [] out H) as (rss & -> & Hrss).
  simpl. clear H. induction Hrss as [|p rs pages rss (url & _ & Hrs) _ IH];
    simpl; [constructor|].
  apply Forall_app. split; [|exact IH].
  clear IH. induction Hrs as [|x r xs rs Hr _ IH]; constructor; [|exact IH].
  destruct (flattened_interaction_shape url x r Hr)
    as (fields & joined & -> & Hk & _ & Hl).
  eauto.
Qed.

Lemma flatten_record_keys_witness :
  Forall
    (fun r =>
       exists fields joined,
         r = VDict fields
         /\ map fst fields = record_keys
         /\ dict_lookup fields "Links" = Some (VStr joined))
    (map record_of_pair (pairs sample_pages)).
Proof.
  apply (flatten_record_keys sample_pages). reflexivity.
Defined.

(** X2: flattening a batch in two parts and appending the outputs gives
    what flattening the whole batch gives, exceptions included. *)
Theorem flatten_app (pages1 pages2 : list value) :
  format_user_info_to_flattened_json (pages1 ++ pages2)
  = let* out1 := format_user_info_to_flattened_json pages1 in
    let* out2 := format_user_info_to_flattened_json pages2 in
    Ok (out1 ++ out2).
Proof.
  unfold format_user_info_to_flattened_json. rewrite for_each_app.
  destruct (for_each pages1 flatten_page []) as [out1|e]; simpl;
    [|reflexivity].
  rewrite (for_each_appends flatten_page pages2 out1 flatten_page_appends).
  destruct (for_each pages2 flatten_page []); reflexivity.
Qed.

Lemma Forall2_elem_l {A B : Type} (P : A -> B -> Prop) (l : list A)
    (k : list B) (x : A) :
  Forall2 P l k -> x ∈ l -> exists y, y ∈ k /\ P x y.
Proof.
  induction 1 as [|a b l k Hab _ IH]; intros Hx.
  - apply elem_of_nil in Hx. contradiction.
  - apply elem_of_cons in Hx as [->|Hx].
    + exists b. split; [left|exact Hab].
    + destruct (IH Hx) as (y & Hy & HP). exists y. split; [right|]; auto.
Qed.

Lemma Forall2_elem_r {A B : Type} (P : A -> B -> Prop) (l : list A)
    (k : list B) (y : B) :
  Forall2 P l k -> y ∈ k -> exists x, x ∈ l /\ P x y.
Proof.
  induction 1 as [|a b l k Hab _ IH]; intros Hy.
  - apply elem_of_nil in Hy. contradiction.
  - apply elem_of_cons in Hy as [->|Hy].
    + exists a. split; [left|exact Hab].
    + destruct (IH Hy) as (x & Hx & HP). exists x. split; [right|]; auto.
Qed.

Lemma elem_of_concat_inv {A : Type} (ls : list (list A)) (x : A) :
  x ∈ concat ls -> exists l, l ∈ ls /\ x ∈ l.
Proof.
  induction ls as [|l ls IH]; simpl; intros Hx.
  - apply elem_of_nil in Hx. contradiction.
  - apply elem_of_app in Hx as [Hx|Hx].
    + exists l. split; [left|exact Hx].
    + destruct (IH Hx) as (l' & Hl' & Hx'). exists l'. split; [right|]; auto.
Qed.

Lemma as_strs_bad (l : list value) :
  forallb is_str l = false -> as_strs l = Raise TypeError.
Proof.
  induction l as [|v l IH]; simpl; [discriminate|].
  destruct v; simpl; try reflexivity.
  intros H. rewrite (IH H). reflexivity.
Qed.

Lemma as_strs_chars (s : string) : as_strs (chars s) = Ok (char_strs s).
Proof.
  induction s as [|c s IH]; simpl; [reflexivity|].
  rewrite IH. reflexivity.
Qed.

Lemma join_bad_links (v : value) :
  bad_links v = true -> exists e, join ", " v = Raise e.
Proof.
  unfold bad_links, join.
  destruct v as [| | | | |l|]; simpl; intros H; try discriminate;
    try (eexists; reflexivity).
  apply negb_true_iff in H. rewrite (as_strs_bad l H). simpl.
  eexists. reflexivity.
Qed.

Lemma bad_interaction_raises (url x : value) :
  bad_interaction x = true -> exists e, flattened_interaction url x = Raise e.
Proof.
  unfold bad_interaction, flattened_interaction.
  destruct x as [| | | | | |d]; simpl; try (intros _; eexists; reflexivity).
  destruct (dict_lookup d "links") as [v|] eqn:Hl; [|discriminate].
  intros Hbad. destruct (join_bad_links v Hbad) as [e He].
  assert (Hget : dict_get d "links" (VList []) = v)
    by (unfold dict_get; rewrite Hl; reflexivity).
  rewrite Hget, He. simpl. eexists. reflexivity.
Qed.

(** X3: a page dict without [website_url], or with it and without
    [user_info], makes the call raise the [KeyError] of that key; the
    records of the pages before it are lost with it. *)
Theorem flatten_missing_key (pre post : list value)
    (d : list (string * value)) :
  forallb is_page_extraction pre = true ->
  (dict_lookup d "website_url" = None ->
   format_user_info_to_flattened_json (pre ++ VDict d :: post)
   = Raise (KeyError "website_url"))
  /\ (is_Some (dict_lookup d "website_url") ->
      dict_lookup d "user_info" = None ->
      format_user_info_to_flattened_json (pre ++ VDict d :: post)
      = Raise (KeyError "user_info")).
Proof.
  intros Hpre. unfold format_user_info_to_flattened_json.
  rewrite for_each_app, (flatten_from pre [] Hpre). simpl.
  unfold flatten_page, getitem. split.
  - intros ->. reflexivity.
  - intros [u ->] ->. reflexivity.
Qed.

Lemma flatten_missing_key_witness :
  format_user_info_to_flattened_json
    (sample_pages ++ [VDict [("user_info", VList [])]])
  = Raise (KeyError "website_url")
  /\ format_user_info_to_flattened_json
       (sample_pages ++ [VDict [("website_url", VStr "https://www.quora.com/q3")]])
     = Raise (KeyError "user_info").
Proof.
  split.
  - apply (proj1 (flatten_missing_key sample_pages []
                    [("user_info", VList [])] eq_refl)).
    reflexivity.
  - apply (proj2 (flatten_missing_key sample_pages []
                    [("website_url", VStr "https://www.quora.com/q3")]
                    eq_refl)).
    + eexists. reflexivity.
    + reflexivity.
Defined.

(** X4: one item that is not a dict, or whose [links] is not iterable or
    holds something that is not a str, anywhere in the batch, makes the
    whole call raise: no partial output is returned. *)
Theorem flatten_bad_interaction (pages : list value) (p x : value) :
  p ∈ pages ->
  x ∈ page_items p ->
  bad_interaction x = true ->
  exists e, format_user_info_to_flattened_json pages = Raise e.
Proof.
  intros Hp Hx Hbad.
  destruct (format_user_info_to_flattened_json pages) as [out|e] eqn:H;
    [|eauto].
  exfalso.
  destruct (flatten_items pages [] out H) as (rss & _ & Hrss).
  destruct (Forall2_elem_l _ _ _ p Hrss Hp) as (rs & _ & url & _ & Hrs).
  destruct (Forall2_elem_l _ _ _ x Hrs Hx) as (r & _ & Hr).
  destruct (bad_interaction_raises url x Hbad) as [e He].
  rewrite He in Hr. discriminate.
Qed.

Lemma flatten_bad_interaction_witness :
  exists e,
    format_user_info_to_flattened_json
      (sample_pages
         ++ [VDict [ ("website_url", VStr "https://www.quora.com/q3");
                     ("user_info",
                      VList [VDict [("links", VNone)]]) ]])
    = Raise e.
Proof.
  apply (flatten_bad_interaction _
           (VDict [ ("website_url", VStr "https://www.quora.com/q3");
                    ("user_info", VList [VDict [("links", VNone)]]) ])
           (VDict [("links", VNone)])).
  - apply elem_of_app. right. left.
  - left.
  - reflexivity.
Defined.

(** X5: a [links] that is a str of ASCII characters is joined character
    by character. *)
Theorem flatten_links_str (url : value) (d : list (string * value))
    (s : string) :
  is_ascii s = true ->
  dict_lookup d "links" = Some (VStr s) ->
  exists fields,
    flattened_interaction url (VDict d) = Ok (VDict fields)
    /\ dict_lookup fields "Links"
       = Some (VStr (String.concat ", " (char_strs s))).
Proof.
  intros _ Hl. unfold flattened_interaction. simpl.
  assert (Hget : dict_get d "links" (VList []) = VStr s)
    by (unfold dict_get; rewrite Hl; reflexivity).
  rewrite Hget. unfold join. simpl.
  rewrite as_strs_chars. simpl. eexists. split; reflexivity.
Qed.

Lemma flatten_links_str_witness :
  exists fields,
    flattened_interaction VNone (VDict [("links", VStr "ab")])
    = Ok (VDict fields)
    /\ dict_lookup fields "Links" = Some (VStr "a, b").
Proof.
  apply (flatten_links_str VNone [("links", VStr "ab")] "ab");
    reflexivity.
Defined.

(** X6: whenever the call returns, also on input outside the data model,
    the output has one record per item iterated, and the [Website URL] of
    every record is the [website_url] of a page of the input. *)
Theorem flatten_sound (pages out : list value) :
  format_user_info_to_flattened_json pages = Ok out ->
  List.length out
  = list_sum (map (fun p => List.length (page_items p)) pages)
  /\ forall r, r ∈ out ->
       exists p url fields,
         p ∈ pages
         /\ getitem p "website_url" = Ok url
         /\ r = VDict fields
         /\ dict_lookup fields "Website URL" = Some url.
Proof.
  intros H. destruct (flatten_items pages [] out H) as (rss & -> & Hrss).
  simpl. split.
  - clear H. induction Hrss as [|p rs pages rss (url & _ & Hrs) _ IH];
      simpl; [reflexivity|].
    rewrite length_app, IH, (Forall2_length _ _ _ Hrs). reflexivity.
  - intros r Hr.
    destruct (elem_of_concat_inv rss r Hr) as (rs & Hrs & Hin).
    destruct (Forall2_elem_r _ _ _ rs Hrss Hrs) as (p & Hp & url & Hu & Hxs).
    destruct (Forall2_elem_r _ _ _ r Hxs Hin) as (x & _ & Hx).
    destruct (flattened_interaction_shape url x r Hx)
      as (fields & joined & -> & _ & Hw & _).
    exists p, url, fields. auto.
Qed.

Lemma flatten_sound_witness :
  List.length (map record_of_pair (pairs sample_pages))
  = list_sum (map (fun p => List.length (page_items p)) sample_pages)
  /\ forall r, r ∈ map record_of_pair (pairs sample_pages) ->
       exists p url fields,
         p ∈ sample_pages
         /\ getitem p "website_url" = Ok url
         /\ r = VDict fields
         /\ dict_lookup fields "Website URL" = Some url.
Proof. apply (flatten_sound sample_pages). reflexivity. Defined.

(** ** The extractor: responses, calls and composition *)

(** X7: reading a response raises exactly when the response is not a dict,
    or when it reports success and the status [completed] and its [data]
    (an empty dict when absent) is not a dict; what is raised is then an
    [AttributeError].  A response that does not report both is never
    looked into further. *)
Theorem accept_response_raises (url response : value) (acc : list value) :
  ((exists e, accept_response url response acc = Raise e)
   <-> (is_dict response = false
        \/ exists r,
             response = VDict r
             /\ truthy (dict_get r "success" VNone) = true
             /\ eq_str (dict_get r "status" VNone) "completed" = true
             /\ is_dict (dict_get r "data" (VDict [])) = false))
  /\ forall e, accept_response url response acc = Raise e ->
               e = AttributeError.
Proof.
  unfold accept_response.
  destruct response as [| | | | | |r]; simpl;
    try (split; [split; [intros _; left; reflexivity | eauto]
                |intros e [= <-]; reflexivity]).
  destruct (truthy (dict_get r "success" VNone)) eqn:Hs; simpl.
  - destruct (eq_str (dict_get r "status" VNone) "completed") eqn:Hc; simpl.
    + destruct (dict_get r "data" (VDict [])) as [| | | | | |d] eqn:Hd;
        simpl;
        try (split; [split; [intros _; right; exists r; rewrite Hd; auto
                            | eauto]
                    |intros e [= <-]; reflexivity]).
      split.
      * split.
        -- intros [e He]. destruct (truthy _) in He; discriminate.
        -- intros [H|(r' & [= <-] & _ & _ & H)]; [discriminate|].
           rewrite Hd in H. discriminate.
      * intros e He. destruct (truthy _) in He; discriminate.
    + split; [|discriminate]. split.
      * intros [e He]. discriminate.
      * intros [H|(r' & [= <-] & _ & H & _)]; [discriminate|].
        rewrite Hc in H. discriminate.
  - split; [|discriminate]. split.
    + intros [e He]. discriminate.
    + intros [H|(r' & [= <-] & H & _)]; [discriminate|].
      rewrite Hs in H. discriminate.
Qed.

Lemma accept_response_raises_witness :
  exists e,
    accept_response (VStr "https://www.quora.com/broken")
      (VDict [ ("success", VBool true);
               ("status", VStr "completed");
               ("data", VNone) ]) []
    = Raise e.
Proof.
  apply (proj2 (proj1 (accept_response_raises
                         (VStr "https://www.quora.com/broken")
                         (VDict [ ("success", VBool true);
                                  ("status", VStr "completed");
                                  ("data", VNone) ]) []))).
  right. eexists. repeat split.
Defined.

Lemma step_raises_bad_data (url : value) (r : list (string * value)) :
  truthy (dict_get r "success" VNone) = true ->
  eq_str (dict_get r "status" VNone) "completed" = true ->
  is_dict (dict_get r "data" (VDict [])) = false ->
  step_raises (url, Ok (VDict r)) = true.
Proof.
  intros Hs Hc Hd. unfold step_raises, accept_response. simpl.
  rewrite Hs. simpl. rewrite Hc. simpl.
  destruct (dict_get r "data" (VDict [])); try discriminate; reflexivity.
Qed.

Lemma completed_steps_app (t1 t2 : list (value * result value)) :
  Forall (fun c => step_raises c = false) t1 ->
  completed_steps (t1 ++ t2) = t1 ++ completed_steps t2.
Proof.
  induction 1 as [|c t1 Hc _ IH]; simpl; [reflexivity|].
  rewrite Hc, IH. reflexivity.
Qed.

Lemma interaction_counts_ge (pages : list value) :
  Forall (fun p => 1 <= interaction_count p) pages ->
  List.length pages <= list_sum (map interaction_count pages).
Proof.
  induction 1 as [|p pages Hp _ IH]; simpl; lia.
Qed.

Lemma pairs_elem (pages : list value) (url x : value) :
  (url, x) ∈ pairs pages ->
  exists p, p ∈ pages /\ url = page_url p /\ x ∈ page_interactions p.
Proof.
  unfold pairs. intros H. apply list_elem_of_In, in_flat_map in H.
  destruct H as (p & Hp & Hin).
  apply in_map_iff in Hin as (x' & [= <- <-] & Hx).
  exists p. rewrite !list_elem_of_In. auto.
Qed.

Section ExtractionBatches.

Context {World : Type}.
Variable firecrawl_extract : string -> value -> value -> M World value.
Variable schema : value.

Abbreviation calls := (service_trace World firecrawl_extract schema).
Abbreviation after := (world_after World firecrawl_extract schema).
Abbreviation run :=
  (extract_user_info_from_urls World firecrawl_extract schema).

Lemma service_trace_app (key : string) (urls1 urls2 : list value)
    (w : World) :
  calls key (urls1 ++ urls2) w
  = calls key urls1 w ++ calls key urls2 (after key urls1 w).
Proof.
  revert w. induction urls1 as [|u urls1 IH]; intros w; simpl;
    [reflexivity|].
  destruct (firecrawl_extract key (VList [u]) (extract_params schema) w)
    as [r w'].
  simpl. f_equal. apply IH.
Qed.

Lemma completed_entries_sublist (key : string) (urls : list value)
    (w : World) :
  map page_url (omap entry_of (completed_steps (calls key urls w)))
    `sublist_of` urls.
Proof.
  etransitivity; [apply entries_sublist|].
  destruct (completed_steps_prefix (calls key urls w)) as [rest Hrest].
  rewrite <- (service_trace_urls firecrawl_extract schema key urls w) at 2.
  rewrite Hrest at 2. rewrite map_app.
  apply sublist_inserts_r. reflexivity.
Qed.

(** The world the loop leaves, from any store. *)
Lemma loop_world (key : string) (urls : list value) (acc : list value)
    (w : World) :
  world
    (snd (for_ urls (extract_body World firecrawl_extract schema key)
            (Build_store acc w)))
  = after key
      (take (S (List.length (completed_steps (calls key urls w)))) urls) w.
Proof.
  revert acc w. induction urls as [|u urls IH]; intros acc w; simpl;
    [reflexivity|].
  unfold bindM at 1. unfold extract_body at 1. unfold bindM at 1.
  unfold call_extract. simpl.
  destruct (firecrawl_extract key (VList [u]) (extract_params schema) w)
    as [[response|e] w']; simpl.
  - unfold update_list. simpl. rewrite accept_response_acc.
    destruct (accept_response u response []) as [l|e]; simpl.
    + rewrite IH. reflexivity.
    + reflexivity.
  - reflexivity.
Qed.

(** X8: a response that reports success and [completed] and whose [data]
    is not a dict (null, say) ends the batch as an exception of the call
    does: the entries of the calls before it are returned and the URLs
    after it are left out. *)
Theorem extract_bad_data_ends_batch (key : string) (urls : list value)
    (w : World) (k : nat) (url : value) (r : list (string * value)) :
  calls key urls w !! k = Some (url, Ok (VDict r)) ->
  truthy (dict_get r "success" VNone) = true ->
  eq_str (dict_get r "status" VNone) "completed" = true ->
  is_dict (dict_get r "data" (VDict [])) = false ->
  (forall j c, j < k -> calls key urls w !! j = Some c ->
               step_raises c = false) ->
  fst (run urls key w) = Ok (omap entry_of (take k (calls key urls w))).
Proof.
  intros Hk Hs Hc Hd Hbefore.
  rewrite extract_entries.
  rewrite (completed_steps_take _ k _ Hk
             (step_raises_bad_data url r Hs Hc Hd) Hbefore).
  reflexivity.
Qed.

(** X9: the service is called for the URLs in order, once each, up to and
    including the first URL whose step raises, and for no URL after it: the
    world the function leaves is the world after exactly these calls. *)
Theorem extract_calls (key : string) (urls : list value) (w : World) :
  snd (run urls key w)
  = after key
      (take (S (List.length (completed_steps (calls key urls w)))) urls) w.
Proof.
  unfold extract_user_info_from_urls, try_pass.
  pose proof (loop_world key urls [] w) as H.
  destruct (for_ urls (extract_body World firecrawl_extract schema key)
              (Build_store [] w)) as [[[]|e] s]; simpl in *; exact H.
Qed.

(** X10: when each successful answer of the service holds a list of
    interaction dicts, the output of the extractor is accepted by the
    flattener; there are at least as many records as entries, and the
    [Website URL] of every record is one of the URLs given. *)
Theorem extract_then_flatten (key : string) (urls : list value) (w : World) :
  (forall url response interactions,
     (url, Ok response) ∈ calls key urls w ->
     succeeded response = Some interactions ->
     exists xs, interactions = VList xs
                /\ forallb is_interaction xs = true) ->
  exists res out,
    fst (run urls key w) = Ok res
    /\ format_user_info_to_flattened_json res = Ok out
    /\ List.length res <= List.length out
    /\ forall r, r ∈ out ->
         exists fields url,
           r = VDict fields
           /\ dict_lookup fields "Website URL" = Some url
           /\ url ∈ urls.
Proof.
  intros Hwf.
  set (res := omap entry_of (completed_steps (calls key urls w))).
  assert (Hentries : forall e, e ∈ res ->
            exists url xs, e = VDict [("website_url", url);
                                      ("user_info", VList xs)]
                           /\ xs <> [] /\ forallb is_interaction xs = true).
  { intros e He. apply list_elem_of_omap in He as ([url o] & Hin & He).
    destruct o as [response|ex]; simpl in He; [|discriminate].
    destruct (succeeded response) as [ints|] eqn:Hs; [|discriminate].
    destruct (truthy ints) eqn:Ht; [|discriminate].
    injection He as <-.
    destruct (completed_steps_prefix (calls key urls w)) as [rest Hrest].
    assert (Hc : (url, Ok response) ∈ calls key urls w)
      by (rewrite Hrest; apply elem_of_app; left; exact Hin).
    destruct (Hwf url response ints Hc Hs) as (xs & -> & Hxs).
    exists url, xs. repeat split; [|exact Hxs].
    intros ->. discriminate. }
  assert (Hvalid : forallb is_page_extraction res = true).
  { apply forallb_forall. intros e He. apply list_elem_of_In in He.
    destruct (Hentries e He) as (url & xs & -> & _ & Hxs). exact Hxs. }
  exists res, (map record_of_pair (pairs res)).
  split; [apply extract_entries|].
  split; [apply flatten_records, Hvalid|].
  split.
  - rewrite length_map, length_pairs. apply interaction_counts_ge.
    apply Forall_forall. intros e He.
    destruct (Hentries e He) as (url & xs & -> & Hne & _).
    unfold interaction_count. simpl. destruct xs; [contradiction|simpl; lia].
  - intros r Hr. apply list_elem_of_fmap in Hr as ([url x] & -> & Hin).
    destruct (pairs_elem res url x Hin) as (p & Hp & -> & Hx).
    destruct (Hentries p Hp) as (u & xs & -> & _ & Hxs).
    simpl in Hx. rewrite forallb_forall in Hxs.
    apply list_elem_of_In in Hx. specialize (Hxs x Hx).
    destruct (is_interaction_dict x Hxs) as [d ->].
    eexists. exists u. split; [reflexivity|]. split; [reflexivity|].
    assert (Hu : u ∈ map page_url res).
    { apply list_elem_of_fmap. eexists. split; [|exact Hp]. reflexivity. }
    exact (elem_of_sublist _ _ _ Hu (completed_entries_sublist key urls w)).
Qed.

(** X11: a batch can be split after a part in which no step raises: the
    result is the result of the first part followed by the result of the
    second part run in the world the first part leaves. *)
Theorem extract_app (key : string) (urls1 urls2 : list value) (w : World) :
  Forall (fun c => step_raises c = false) (calls key urls1 w) ->
  fst (run (urls1 ++ urls2) key w)
  = let* res1 := fst (run urls1 key w) in
    let* res2 := fst (run urls2 key (after key urls1 w)) in
    Ok (res1 ++ res2).
Proof.
  intros Hok. rewrite !extract_entries. simpl.
  rewrite service_trace_app, (completed_steps_app _ _ Hok), omap_app.
  rewrite (completed_steps_all _ Hok). reflexivity.
Qed.

End ExtractionBatches.

Lemma extract_bad_data_ends_batch_witness :
  fst (extract_user_info_from_urls nat null_data_extract VNone broken_urls
         "key" 0)
  = Ok (omap entry_of
          (take 1 (service_trace nat null_data_extract VNone "key"
                     broken_urls 0))).
Proof.
  apply (extract_bad_data_ends_batch null_data_extract VNone "key"
           broken_urls 0 1 (VStr "https://www.quora.com/broken")
           [ ("success", VBool true);
             ("status", VStr "completed");
             ("data", VNone) ]).
  - reflexivity.
  - reflexivity.
  - reflexivity.
  - reflexivity.
  - intros j c Hj Hl. destruct j as [|j]; [|lia].
    injection Hl as <-. reflexivity.
Defined.

Lemma extract_then_flatten_witness :
  exists res out,
    fst (extract_user_info_from_urls nat sample_extract VNone sample_urls
           "key" 0) = Ok res
    /\ format_user_info_to_flattened_json res = Ok out
    /\ List.length res <= List.length out
    /\ forall r, r ∈ out ->
         exists fields url,
           r = VDict fields
           /\ dict_lookup fields "Website URL" = Some url
           /\ url ∈ sample_urls.
Proof.
  apply (extract_then_flatten sample_extract VNone "key" sample_urls 0).
  intros url response ints Hin Hs.
  apply elem_of_cons in Hin as [Hin|Hin].
  { injection Hin as -> ->. injection Hs as <-.
    eexists. split; reflexivity. }
  apply elem_of_cons in Hin as [Hin|Hin]; [discriminate|].
  apply elem_of_cons in Hin as [Hin|Hin].
  { injection Hin as -> ->. injection Hs as <-.
    eexists. split; reflexivity. }
  apply elem_of_nil in Hin. contradiction.
Defined.

Lemma extract_app_witness :
  fst (extract_user_info_from_urls nat sample_extract VNone
         ([VStr "https://www.quora.com/q1"]
            ++ [VStr "https://www.quora.com/down";
                VStr "https://www.quora.com/q2"]) "key" 0)
  = let* res1 :=
      fst (extract_user_info_from_urls nat sample_extract VNone
             [VStr "https://www.quora.com/q1"] "key" 0) in
    let* res2 :=
      fst (extract_user_info_from_urls nat sample_extract VNone
             [VStr "https://www.quora.com/down";
              VStr "https://www.quora.com/q2"] "key"
             (world_after nat sample_extract VNone "key"
                [VStr "https://www.quora.com/q1"] 0)) in
    Ok (res1 ++ res2).
Proof.
  apply (extract_app sample_extract VNone "key"
           [VStr "https://www.quora.com/q1"]
           [VStr "https://www.quora.com/down";
            VStr "https://www.quora.com/q2"] 0).
  repeat constructor.
Defined.

(** The counting service is called twice for the three sample URLs: the
    second call raises. *)
Example extract_calls_counted :
  snd (extract_user_info_from_urls nat sample_extract VNone sample_urls
         "key" 0) = 2.
Proof. reflexivity. Qed.

(** ** Link discovery: errors *)

Lemma comprehension_app (f : value -> result value) (l1 l2 : list value) :
  comprehension f (l1 ++ l2)
  = let* ys1 := comprehension f l1 in
    let* ys2 := comprehension f l2 in
    Ok (ys1 ++ ys2).
Proof.
  induction l1 as [|x l1 IH]; simpl.
  - destruct (comprehension f l2); reflexivity.
  - destruct (f x) as [y|e]; simpl; [|reflexivity].
    rewrite IH. destruct (comprehension f l1) as [ys1|e]; simpl;
      [|reflexivity].
    destruct (comprehension f l2); reflexivity.
Qed.

(** X12: in a successful answer, the first result entry that is a dict
    without [url] makes [search_for_urls] raise [KeyError], and the first
    entry that is not a dict makes it raise [TypeError]; the URLs of the
    entries before it are not returned. *)
Theorem search_entry_without_url {World : Type}
    (requests_post : request -> M World response)
    (topic firecrawl_api_key : string) (num_links : Z) (w w' : World)
    (resp : response) (d : list (string * value))
    (entries : list (list (string * value))) (bad : value)
    (rest : list value) :
  requests_post (search_request topic firecrawl_api_key num_links) w
  = (Ok resp, w') ->
  status_code resp = 200%Z ->
  json resp = Ok (VDict d) ->
  truthy (dict_get d "success" VNone) = true ->
  dict_get d "data" (VList []) = VList (map VDict entries ++ bad :: rest) ->
  Forall (fun e => is_Some (dict_lookup e "url")) entries ->
  (forall e, bad = VDict e -> dict_lookup e "url" = None ->
             search_for_urls World requests_post topic firecrawl_api_key
               num_links w
             = (Raise (KeyError "url"), w'))
  /\ (is_dict bad = false ->
      search_for_urls World requests_post topic firecrawl_api_key
        num_links w
      = (Raise TypeError, w')).
Proof.
  intros Hpost Hst Hjson Hflag Hdata Hurls.
  assert (Hrun : forall ex,
            getitem bad "url" = Raise ex ->
            search_for_urls World requests_post topic firecrawl_api_key
              num_links w = (Raise ex, w')).
  { intros ex Hbad. unfold search_for_urls, bindM, lift. rewrite Hpost.
    f_equal. unfold urls_of_response. rewrite Hst, Hjson. simpl.
    rewrite Hflag, Hdata. simpl.
    rewrite comprehension_app, (comprehension_urls entries Hurls). simpl.
    rewrite Hbad. reflexivity. }
  split.
  - intros e -> He. apply Hrun. simpl. rewrite He. reflexivity.
  - intros Hnd. apply Hrun. destruct bad; try reflexivity. discriminate.
Qed.

Lemma search_entry_without_url_witness :
  search_for_urls (list request)
    (sample_post 200
       (Ok (VDict [ ("success", VBool true);
                    ("data",
                     VList [ VDict [("url", VStr "https://www.quora.com/q1")];
                             VDict [("title", VStr "no url")] ]) ])))
    "AI chatbots" "fc-key" 3 []
  = (Raise (KeyError "url"), [search_request "AI chatbots" "fc-key" 3]).
Proof.
  assert (Hurls : Forall (fun e => is_Some (dict_lookup e "url"))
                    [[("url", VStr "https://www.quora.com/q1")]]).
  { constructor; [eexists; reflexivity | constructor]. }
  apply (proj1 (search_entry_without_url
           (sample_post 200
              (Ok (VDict [ ("success", VBool true);
                           ("data",
                            VList [ VDict [("url",
                                            VStr "https://www.quora.com/q1")];
                                    VDict [("title", VStr "no url")] ]) ])))
           "AI chatbots" "fc-key" 3 []
           [search_request "AI chatbots" "fc-key" 3]
           _ _ [[("url", VStr "https://www.quora.com/q1")]]
           (VDict [("title", VStr "no url")]) []
           eq_refl eq_refl eq_refl eq_refl eq_refl Hurls)
         [("title", VStr "no url")]); reflexivity.
Defined.

(** X13: [search_for_urls] catches nothing.  An exception of the POST, an
    exception of [response.json()] on a 200 answer, the [AttributeError] of
    a 200 body that is not a JSON object and the [TypeError] of a [data]
    that is null all reach the caller. *)
Theorem search_does_not_catch {World : Type}
    (requests_post : request -> M World response)
    (topic firecrawl_api_key : string) (num_links : Z) (w w' : World) :
  (forall e,
     requests_post (search_request topic firecrawl_api_key num_links) w
     = (Raise e, w') ->
     search_for_urls World requests_post topic firecrawl_api_key num_links w
     = (Raise e, w'))
  /\ (forall resp,
        requests_post (search_request topic firecrawl_api_key num_links) w
        = (Ok resp, w') ->
        status_code resp = 200%Z ->
        (forall e, json resp = Raise e ->
           search_for_urls World requests_post topic firecrawl_api_key
             num_links w = (Raise e, w'))
        /\ (forall body, json resp = Ok body -> is_dict body = false ->
              search_for_urls World requests_post topic firecrawl_api_key
                num_links w = (Raise AttributeError, w'))
        /\ (forall d, json resp = Ok (VDict d) ->
              truthy (dict_get d "success" VNone) = true ->
              dict_lookup d "data" = Some VNone ->
              search_for_urls World requests_post topic firecrawl_api_key
                num_links w = (Raise TypeError, w'))).
Proof.
  split.
  - intros e Hpost. unfold search_for_urls, bindM. rewrite Hpost.
    reflexivity.
  - intros resp Hpost Hst.
    assert (Hrun :
      search_for_urls World requests_post topic firecrawl_api_key
        num_links w = (urls_of_response resp, w')).
    { unfold search_for_urls, bindM, lift. rewrite Hpost. reflexivity. }
    rewrite Hrun. unfold urls_of_response. rewrite Hst. simpl.
    split; [|split].
    + intros e ->. reflexivity.
    + intros body -> Hnd. destruct body; try reflexivity. discriminate.
    + intros d -> Hflag Hdata. simpl. rewrite Hflag.
      unfold dict_get. rewrite Hdata. reflexivity.
Qed.

Lemma search_does_not_catch_witness :
  search_for_urls (list request) failing_post "AI chatbots" "fc-key" 3 []
  = (Raise (ExternalError "ConnectionError"),
     [search_request "AI chatbots" "fc-key" 3])
  /\ search_for_urls (list request)
       (sample_post 200 (Raise (ExternalError "JSONDecodeError")))
       "AI chatbots" "fc-key" 3 []
     = (Raise (ExternalError "JSONDecodeError"),
        [search_request "AI chatbots" "fc-key" 3])
  /\ search_for_urls (list request) (sample_post 200 (Ok (VList [])))
       "AI chatbots" "fc-key" 3 []
     = (Raise AttributeError, [search_request "AI chatbots" "fc-key" 3]).
Proof.
  split; [|split].
  - apply (proj1 (search_does_not_catch failing_post "AI chatbots" "fc-key"
                    3 [] [search_request "AI chatbots" "fc-key" 3])).
    reflexivity.
  - apply (proj1 (proj2 (search_does_not_catch
                    (sample_post 200 (Raise (ExternalError "JSONDecodeError")))
                    "AI chatbots" "fc-key" 3 []
                    [search_request "AI chatbots" "fc-key" 3])
                  _ eq_refl eq_refl)).
    reflexivity.
  - apply (proj1 (proj2 (proj2 (search_does_not_catch
                    (sample_post 200 (Ok (VList [])))
                    "AI chatbots" "fc-key" 3 []
                    [search_request "AI chatbots" "fc-key" 3])
                  _ eq_refl eq_refl)) (VList [])); reflexivity.
Defined.

(** ** Model selection: the string tests and the priority loop *)

Lemma prefix_append (sub s : string) :
  String.prefix sub s = true <-> exists post, s = (sub ++ post)%string.
Proof.
  revert s. induction sub as [|a sub IH]; intros s.
  - split; [intros _; exists s; reflexivity|]. intros _. destruct s; reflexivity.
  - destruct s as [|b s]; simpl.
    + split; [discriminate|]. intros [post H]. discriminate.
    + destruct (ascii_dec a b) as [->|Hne].
      * rewrite IH. split; intros [post H]; exists post.
        -- rewrite H. reflexivity.
        -- injection H as ->. reflexivity.
      * split; [discriminate|]. intros [post H]. injection H as -> _.
        contradiction.
Qed.

(** X14: the test [sub in s] of line 144 holds exactly when [s] is some
    str, then [sub], then some str. *)
Theorem contains_spec (sub s : string) :
  contains sub s = true
  <-> exists pre post, s = (pre ++ sub ++ post)%string.
Proof.
  induction s as [|c s IH]; simpl.
  - rewrite orb_false_r. split.
    + intros H. apply (prefix_append sub "") in H as [post H].
      exists "", post. exact H.
    + intros (pre & post & H). destruct pre; [|discriminate].
      apply (prefix_append sub ""). exists post. exact H.
  - rewrite orb_true_iff, IH. split.
    + intros [H|(pre & post & ->)].
      * apply (prefix_append sub (String c s)) in H as [post H].
        exists "", post. exact H.
      * exists (String c pre), post. reflexivity.
    + intros (pre & post & H). destruct pre as [|c' pre].
      * left. apply (prefix_append sub (String c s)). exists post. exact H.
      * right. injection H as -> ->. exists pre, post. reflexivity.
Qed.

Lemma contains_spec_witness :
  contains "gemini-2.5-flash" "models/gemini-2.5-flash-001" = true.
Proof.
  apply (proj2 (contains_spec "gemini-2.5-flash"
                  "models/gemini-2.5-flash-001")).
  exists "models/", "-001". reflexivity.
Defined.

Lemma contains_slash_cons (c : ascii) (r : string) :
  contains "/" (String c r) = Ascii.eqb c "/" || contains "/" r.
Proof.
  cbn [contains String.prefix]. destruct (ascii_dec "/" c) as [<-|Hne].
  - destruct r; reflexivity.
  - destruct (Ascii.eqb_spec c "/") as [->|_]; [contradiction|reflexivity].
Qed.

Lemma split_slash_no_slash (r p : string) (ps : list string) :
  split_slash r = (p, ps) ->
  (contains "/" r = false -> ps = [] /\ p = r)
  /\ (contains "/" r = true -> ps <> []).
Proof.
  revert p ps. induction r as [|c r IH]; intros p ps H.
  - injection H as <- <-. split; [auto|discriminate].
  - rewrite contains_slash_cons. cbn [split_slash] in H.
    destruct (split_slash r) as [p0 ps0].
    destruct (IH p0 ps0 eq_refl) as [Hno Hyes].
    destruct (Ascii.eqb c "/"); injection H as <- <-; simpl.
    + split; [discriminate|]. intros _. discriminate.
    + split.
      * intros Hr. destruct (Hno Hr) as [-> ->]. auto.
      * exact Hyes.
Qed.

Lemma last_default {A : Type} (l : list A) (d d' : A) :
  l <> [] -> List.last l d = List.last l d'.
Proof.
  induction l as [|x l IH]; [contradiction|]. intros _.
  destruct l as [|y l]; [reflexivity|].
  change (List.last (y :: l) d = List.last (y :: l) d').
  apply IH. discriminate.
Qed.

Lemma last_segment_cons (c : ascii) (r : string) :
  last_segment (String c r)
  = if Ascii.eqb c "/" then last_segment r
    else if contains "/" r then last_segment r else String c r.
Proof.
  unfold last_segment. cbn [split_slash].
  destruct (split_slash r) as [p ps] eqn:Hsplit.
  destruct (split_slash_no_slash r p ps Hsplit) as [Hno Hyes].
  destruct (Ascii.eqb c "/").
  - destruct ps as [|q ps]; [reflexivity|].
    change (List.last (q :: ps) "" = List.last (q :: ps) p).
    apply last_default. discriminate.
  - destruct (contains "/" r).
    + apply last_default, Hyes. reflexivity.
    + destruct (Hno eq_refl) as [-> ->]. reflexivity.
Qed.

Lemma last_segment_spec (s : string) :
  exists pre,
    s = (pre ++ last_segment s)%string
    /\ (pre = "" \/ exists q, pre = (q ++ "/")%string)
    /\ contains "/" (last_segment s) = false.
Proof.
  induction s as [|c s (pre & Hs & Hpre & Hno)].
  - exists "". repeat split. left. reflexivity.
  - rewrite last_segment_cons.
    destruct (Ascii.eqb_spec c "/") as [->|Hc].
    + exists (String "/" pre). split; [simpl; rewrite <- Hs; reflexivity|].
      split; [|exact Hno]. right.
      destruct Hpre as [->|[q ->]]; [exists ""|exists (String "/" q)];
        reflexivity.
    + destruct (contains "/" s) eqn:Hsl.
      * exists (String c pre). split; [simpl; rewrite <- Hs; reflexivity|].
        split; [|exact Hno]. right.
        destruct Hpre as [->|[q ->]].
        -- simpl in Hs. rewrite <- Hs, Hsl in Hno. discriminate.
        -- exists (String c q). reflexivity.
      * exists "". split; [reflexivity|]. split; [left; reflexivity|].
        rewrite contains_slash_cons, Hsl.
        destruct (Ascii.eqb_spec c "/"); [contradiction|reflexivity].
Qed.

Lemma collect_names_listed (models : list model) (names : list string) :
  collect_names models names = names ++ omap listed_name models.
Proof.
  revert names. induction models as [|m models IH]; intros names; simpl.
  - rewrite app_nil_r. reflexivity.
  - unfold listed_name, generates_content.
    destruct (existsb _ _ || existsb _ _); [|apply IH].
    destruct (name m) as [n|]; [|apply IH].
    destruct (String.eqb n ""); simpl; [apply IH|].
    rewrite IH, <- app_assoc. reflexivity.
Qed.

(** X15: [list_available_gemini_models] never raises.  It returns, in the
    order of the listing, the part after the last [/] of the name of each
    model that supports [generateContent] or [createContent] and has a
    name; no returned name holds a [/], and each is the end of the listed
    name it comes from, which is cut after a [/]. *)
Theorem list_available_names {World : Type}
    (genai_list_models : string -> M World (list model))
    (api_key : string) (w : World) :
  exists names w',
    list_available_gemini_models World genai_list_models api_key w
    = (Ok names, w')
    /\ (forall models,
          fst (genai_list_models api_key w) = Ok models ->
          names = omap listed_name models)
    /\ (forall e, fst (genai_list_models api_key w) = Raise e -> names = [])
    /\ Forall (fun n => contains "/" n = false) names
    /\ (forall m n, listed_name m = Some n ->
          exists full pre, name m = Some full
                           /\ full = (pre ++ n)%string
                           /\ (pre = "" \/ exists q, pre = (q ++ "/")%string)).
Proof.
  unfold list_available_gemini_models.
  destruct (genai_list_models api_key w) as [[models|e] w']; simpl.
  - exists (collect_names models []), w'. rewrite collect_names_listed.
    simpl. split; [reflexivity|]. split; [intros ? [= <-]; reflexivity|].
    split; [discriminate|]. split.
    + apply Forall_forall. intros n Hn.
      apply list_elem_of_omap in Hn as (m & _ & Hm).
      unfold listed_name in Hm. destruct (generates_content m);
        [|discriminate].
      destruct (name m) as [full|]; [|discriminate].
      destruct (String.eqb full ""); [discriminate|]. injection Hm as <-.
      destruct (last_segment_spec full) as (pre & _ & _ & Hno). exact Hno.
    + intros m n Hm. unfold listed_name in Hm.
      destruct (generates_content m); [|discriminate].
      destruct (name m) as [full|]; [|discriminate].
      destruct (String.eqb full ""); [discriminate|]. injection Hm as <-.
      destruct (last_segment_spec full) as (pre & Hfull & Hpre & _).
      exists full, pre. auto.
  - exists [], w'. split; [reflexivity|]. split; [discriminate|].
    split; [reflexivity|]. split; [constructor|].
    intros m n Hm. unfold listed_name in Hm.
    destruct (generates_content m); [|discriminate].
    destruct (name m) as [full|]; [|discriminate].
    destruct (String.eqb full ""); [discriminate|]. injection Hm as <-.
    destruct (last_segment_spec full) as (pre & Hfull & Hpre & _).
    exists full, pre. auto.
Qed.

Lemma find_first {A : Type} (f : A -> bool) (l : list A) :
  existsb f l = true ->
  exists before m after,
    l = before ++ m :: after
    /\ f m = true
    /\ (forall a, a ∈ before -> f a = false)
    /\ List.find f l = Some m.
Proof.
  induction l as [|x l IH]; simpl; [discriminate|].
  destruct (f x) eqn:Hx; simpl.
  - intros _. exists [], x, l. repeat split; auto.
    intros a Ha. apply elem_of_nil in Ha. contradiction.
  - intros H. destruct (IH H) as (before & m & after & -> & Hm & Hb & Hf).
    exists (x :: before), m, after. repeat split; auto.
    intros a Ha. apply elem_of_cons in Ha as [->|Ha]; auto.
Qed.

Lemma existsb_none {A : Type} (f : A -> bool) (l : list A) :
  existsb f l = false -> forall a, a ∈ l -> f a = false.
Proof.
  induction l as [|x l IH]; simpl; intros H a Ha.
  - apply elem_of_nil in Ha. contradiction.
  - apply orb_false_iff in H as [Hx Hl].
    apply elem_of_cons in Ha as [->|Ha]; auto.
Qed.

Lemma pick_by_priority_member (prio available : list string) :
  exists m,
    pick_by_priority prio available = Ok m
    /\ (m = "gemini-1.5-pro" \/ m ∈ available).
Proof.
  induction prio as [|pid prio IH]; simpl.
  - exists "gemini-1.5-pro". auto.
  - destruct (existsb (contains pid) available) eqn:He; [|exact IH].
    destruct (find_first _ _ He) as (before & a & after & -> & _ & _ & ->).
    exists a. split; [reflexivity|]. right.
    apply elem_of_app. right. left.
Qed.

(** X16: the loop of lines 143-146 never raises.  It returns the first
    available name that contains the first priority entry contained in any
    available name; when no available name contains any priority entry it
    returns [gemini-1.5-pro]. *)
Theorem pick_by_priority_spec (prio available : list string) :
  exists m,
    pick_by_priority prio available = Ok m
    /\ ((m = "gemini-1.5-pro"
         /\ forall pid a, pid ∈ prio -> a ∈ available ->
                          contains pid a = false)
        \/ exists pre pid post before after,
             prio = pre ++ pid :: post
             /\ available = before ++ m :: after
             /\ contains pid m = true
             /\ (forall a, a ∈ before -> contains pid a = false)
             /\ (forall p a, p ∈ pre -> a ∈ available ->
                             contains p a = false)).
Proof.
  induction prio as [|pid prio (m & Hm & IH)]; simpl.
  - exists "gemini-1.5-pro". split; [reflexivity|]. left.
    split; [reflexivity|]. intros pid a Hp.
    apply elem_of_nil in Hp. contradiction.
  - destruct (existsb (contains pid) available) eqn:He.
    + destruct (find_first _ _ He) as (before & a & after & Ha & Hc & Hb & Hf).
      rewrite Hf. exists a. split; [reflexivity|]. right.
      exists [], pid, prio, before, after. repeat split; auto.
      intros p x Hp. apply elem_of_nil in Hp. contradiction.
    + exists m. split; [exact Hm|].
      pose proof (existsb_none _ _ He) as Hnone.
      destruct IH as [[-> Hno]|(pre & p & post & before & after
                                & -> & Hav & Hc & Hb & Hpre)].
      * left. split; [reflexivity|]. intros p a Hp Ha.
        apply elem_of_cons in Hp as [->|Hp]; auto.
      * right. exists (pid :: pre), p, post, before, after.
        repeat split; auto.
        intros q a Hq Ha. apply elem_of_cons in Hq as [->|Hq]; auto.
Qed.


(** X17: in auto mode [choose_gemini_model] never raises, whatever the
    provider does; it lists the models once and returns [gemini-1.5-pro]
    or one of the names obtained from the listing. *)
Theorem choose_auto_total {World : Type}
    (genai_list_models : string -> M World (list model))
    (api_key : string) (w : World) :
  exists m,
    choose_gemini_model World genai_list_models api_key auto_choice w
    = (Ok m, snd (genai_list_models api_key w))
    /\ (m = "gemini-1.5-pro"
        \/ exists models,
             fst (genai_list_models api_key w) = Ok models
             /\ m ∈ omap listed_name models).
Proof.
  destruct (genai_list_models api_key w) as [[models|e] w'] eqn:Hlist;
    cbn [fst snd].
  - rewrite (choose_auto_listed _ _ _ _ _ Hlist).
    destruct (pick_by_priority_member priority (collect_names models []))
      as (m & Hm & Hwhich).
    rewrite Hm. exists m. split; [reflexivity|].
    destruct Hwhich as [->|Hin].
    + left. reflexivity.
    + right. exists models. split; [reflexivity|].
      rewrite collect_names_listed in Hin. exact Hin.
  - exists "gemini-1.5-pro". split; [|left; reflexivity].
    unfold choose_gemini_model. rewrite String.eqb_refl. cbn [negb].
    unfold bindM, list_available_gemini_models, lift.
    rewrite Hlist. reflexivity.
Qed.

(** ** The page *)

Lemma for_st {World : Type} (fn : string) (urls : list value)
    (s : page World) :
  for_ urls
    (fun url s0 =>
       (Ok tt,
        {| shown := shown s0
                      ++ [{| fn := fn; args := [url]; kwargs := [] |}];
           outside := outside s0 |}))
    s
  = (Ok tt,
     Build_page (shown s ++ map (fun url => call fn [url] []) urls)
       (outside s)).
Proof.
  revert s. induction urls as [|u urls IH]; intros [sh w]; simpl.
  - rewrite app_nil_r. reflexivity.
  - unfold bindM. simpl. rewrite IH. simpl. rewrite <- app_assoc.
    reflexivity.
Qed.

Section MainRuns.

Context {World : Type}.
Variable genai_list_models : string -> M World (list model).
Variable agent_run : agent -> string -> M World run_output.
Variable requests_post : request -> M World response.
Variable firecrawl_extract : string -> value -> value -> M World value.
Variable schema : value.
Variable open_file : string -> M World unit.
Variable write_csv : string -> list string -> list value -> M World unit.
Variable csv_text : list string -> list value -> result string.
Variable json_dumps : value -> result string.
Variable str_of_value : value -> string.
Variable str_of_exn : exn -> string.

Abbreviation run_main :=
  (main World genai_list_models agent_run requests_post firecrawl_extract
     schema open_file write_csv csv_text json_dumps str_of_value str_of_exn).

Ltac unfold_page :=
  cbv beta iota zeta delta
    [main sidebar on_generate_leads use_urls show_leads save_csv spinner
     remote st bindM ret lift try_except negb andb call spinner_exit
     query_calls url_calls lead_calls];
  cbn [shown outside].

Ltac give_top :=
  eexists [_; _; _; _; _; _; _; _; _; _; _; _; _; _; _];
  split; [reflexivity|].

Ltac same_calls :=
  unfold_page;
  repeat (progress (rewrite <- ?app_assoc; cbn [app]));
  reflexivity.

Variable v : Widgets.values.
Variable sh : list st_call.
Variable w : World.

(** X18: no service is reached when Reset is pressed, when Generate Leads
    is not pressed, or when one of the two keys or the description is
    empty; in the last case the last call shows the error message. *)
Theorem main_no_remote_call :
  (Widgets.reset v = true ->
   exists calls,
     run_main v (Build_page sh w) = (Ok Rerun, Build_page (sh ++ calls) w)
     /\ last calls = Some (call "sidebar.__exit__" [] []))
  /\ (Widgets.reset v = false -> Widgets.generate_leads v = false ->
      exists top,
        List.length top = 15
        /\ run_main v (Build_page sh w) = (Ok Done, Build_page (sh ++ top) w))
  /\ (Widgets.reset v = false -> Widgets.generate_leads v = true ->
      Widgets.firecrawl_api_key v = ""
      \/ Widgets.gemini_api_key v = ""
      \/ Widgets.user_query v = "" ->
      exists top,
        List.length top = 15
        /\ run_main v (Build_page sh w)
           = (Ok Done,
              Build_page
                (sh ++ top
                    ++ [call "error"
                          [VStr "Please fill in the required API keys and describe what leads you're looking for."]
                          []])
                w)).
Proof.
  split; [|split].
  - intros Hreset. unfold_page. rewrite Hreset. unfold_page.
    rewrite <- ?app_assoc. cbn [app]. eexists. split; reflexivity.
  - intros Hreset Hgen. give_top. unfold_page. rewrite Hreset, Hgen.
    same_calls.
  - intros Hreset Hgen Hempty. give_top. unfold_page. rewrite Hreset, Hgen.
    assert (Hguard :
      negb (String.eqb (Widgets.firecrawl_api_key v) "")
      && negb (String.eqb (Widgets.gemini_api_key v) "")
      && negb (String.eqb (Widgets.user_query v) "") = false).
    { destruct Hempty as [H | [H | H]]; rewrite H; simpl;
        rewrite ?andb_false_r; reflexivity. }
    unfold negb, andb in Hguard. rewrite Hguard. same_calls.
Qed.

(** *** Runs that reach the services *)

Hypothesis Hreset : Widgets.reset v = false.
Hypothesis Hgen : Widgets.generate_leads v = true.
Hypothesis Hfc : Widgets.firecrawl_api_key v <> "".
Hypothesis Hgm : Widgets.gemini_api_key v <> "".
Hypothesis Huq : Widgets.user_query v <> "".

Variable resolved_model : string.
Variable w1 : World.
Hypothesis Hmodel :
  choose_gemini_model World genai_list_models (Widgets.gemini_api_key v)
    (Widgets.gemini_model_id v) w
  = (Ok resolved_model, w1).

Abbreviation ask :=
  (agent_run
     (create_prompt_transformation_agent (Widgets.gemini_api_key v)
        resolved_model)
     (transformation_prompt prompt_transformation_instructions
        (Widgets.user_query v))
     w1).

Abbreviation search out :=
  (search_for_urls World requests_post
     (format_value str_of_value (company_text_of out))
     (Widgets.firecrawl_api_key v) (Widgets.num_links v)).

Abbreviation extract urls :=
  (extract_user_info_from_urls World firecrawl_extract schema urls
     (Widgets.firecrawl_api_key v)).

Ltac enter_handler :=
  unfold_page; rewrite Hreset, Hgen;
  rewrite (proj2 (String.eqb_neq _ _) Hfc),
    (proj2 (String.eqb_neq _ _) Hgm), (proj2 (String.eqb_neq _ _) Huq);
  unfold_page; rewrite Hmodel; unfold_page.

Ltac after_agent out Hagent :=
  rewrite Hagent; unfold_page;
  change (match out with
          | HasContent content => content
          | NoContent text => VStr text
          end) with (company_text_of out);
  fold (format_value str_of_value (company_text_of out)).

(** X19: when the search finds no URL, the run ends with the warning; the
    world it leaves is the one the search left, so neither the extraction
    service nor the file system is used. *)
Theorem main_no_urls (out : run_output) (w2 w3 : World) :
  ask = (Ok out, w2) ->
  search out w2 = (Ok [], w3) ->
  exists top,
    List.length top = 15
    /\ run_main v (Build_page sh w)
       = (Ok Done,
          Build_page
            (sh ++ top
                ++ query_calls resolved_model (company_text_of out)
                ++ [call "warning" [VStr "No relevant URLs found."] []])
            w3).
Proof.
  intros Hagent Hsearch. give_top. enter_handler. after_agent out Hagent.
  rewrite Hsearch. same_calls.
Qed.

(** X20: when URLs are found and the extraction yields no entry, the run
    ends normally after the two spinners: nothing is previewed or offered
    for download, no file is opened, and no message says that no lead was
    found. *)
Theorem main_nothing_extracted (out : run_output) (w2 w3 w4 : World)
    (url : value) (urls : list value) :
  ask = (Ok out, w2) ->
  search out w2 = (Ok (url :: urls), w3) ->
  extract (url :: urls) w3 = (Ok [], w4) ->
  exists top,
    List.length top = 15
    /\ run_main v (Build_page sh w)
       = (Ok Done,
          Build_page
            (sh ++ top
                ++ query_calls resolved_model (company_text_of out)
                ++ url_calls (url :: urls))
            w4).
Proof.
  intros Hagent Hsearch Hextract. give_top. enter_handler.
  after_agent out Hagent. rewrite Hsearch. unfold_page.
  rewrite for_st. unfold_page. rewrite Hextract.
  change (format_user_info_to_flattened_json []) with (@Ok (list value) []).
  same_calls.
Qed.

(** X21: once leads are shown, the outcome of the save does not change how
    the run ends.  The preview and both downloads come first; then a
    success message when the file is opened and written, and an error
    message, with the run still ending normally, when opening or writing
    raises. *)
Theorem main_save_outcome (out : run_output) (w2 w3 w4 w5 : World)
    (url : value) (urls user_info_list : list value) (first : value)
    (rest : list value) (fieldnames : list string) (csv json : string) :
  ask = (Ok out, w2) ->
  search out w2 = (Ok (url :: urls), w3) ->
  extract (url :: urls) w3 = (Ok user_info_list, w4) ->
  format_user_info_to_flattened_json user_info_list = Ok (first :: rest) ->
  keys first = Ok fieldnames ->
  csv_text fieldnames (first :: rest) = Ok csv ->
  json_dumps (VList (first :: rest)) = Ok json ->
  exists top,
    List.length top = 15
    /\ (forall e,
          open_file (Widgets.output_csv_path v) w4 = (Raise e, w5) ->
          run_main v (Build_page sh w)
          = (Ok Done,
             Build_page
               (sh ++ top
                   ++ query_calls resolved_model (company_text_of out)
                   ++ url_calls (url :: urls)
                   ++ lead_calls (first :: rest) csv json
                   ++ [call "error"
                         [VStr ("Failed to save CSV: " ++ str_of_exn e)%string]
                         []])
               w5))
    /\ (forall r w6,
          open_file (Widgets.output_csv_path v) w4 = (Ok tt, w5) ->
          write_csv (Widgets.output_csv_path v) fieldnames (first :: rest) w5
          = (r, w6) ->
          run_main v (Build_page sh w)
          = (Ok Done,
             Build_page
               (sh ++ top
                   ++ query_calls resolved_model (company_text_of out)
                   ++ url_calls (url :: urls)
                   ++ lead_calls (first :: rest) csv json
                   ++ [match r with
                       | Ok _ =>
                           call "success"
                             [VStr ("Saved CSV to "
                                      ++ Widgets.output_csv_path v)%string]
                             []
                       | Raise e =>
                           call "error"
                             [VStr ("Failed to save CSV: "
                                      ++ str_of_exn e)%string]
                             []
                       end])
               w6)).
Proof.
  intros Hagent Hsearch Hextract Hflat Hkeys Hcsv Hjson. give_top.
  assert (Hlen : (0 <? Z.of_nat (List.length (first :: rest)))%Z = true)
    by (apply Z.ltb_lt; simpl; lia).
  split.
  - intros e Hopen. enter_handler. after_agent out Hagent.
    rewrite Hsearch. unfold_page. rewrite for_st. unfold_page.
    rewrite Hextract, Hflat. unfold_page. rewrite Hlen, Hkeys.
    cbv beta iota delta [bind]. rewrite Hcsv, Hjson. unfold_page.
    rewrite Hopen. same_calls.
  - intros r w6 Hopen Hwrite. enter_handler. after_agent out Hagent.
    rewrite Hsearch. unfold_page. rewrite for_st. unfold_page.
    rewrite Hextract, Hflat. unfold_page. rewrite Hlen, Hkeys.
    cbv beta iota delta [bind]. rewrite Hcsv, Hjson. unfold_page.
    rewrite Hopen. unfold_page. rewrite Hwrite.
    destruct r as [[]|e]; same_calls.
Qed.

(** X22: an exception of the agent, of the search or of the flattener is
    not caught: the run ends with it, at the spinner in which it was
    raised. *)
Theorem main_errors_are_fatal (e : exn) :
  (forall w2,
     ask = (Raise e, w2) ->
     exists top,
       List.length top = 15
       /\ run_main v (Build_page sh w)
          = (Raise e,
             Build_page
               (sh ++ top
                   ++ [ call "caption"
                          [VStr ("Using Gemini model: "
                                   ++ resolved_model)%string] [];
                        call "spinner" [VStr "Processing your query..."] [];
                        spinner_exit ])
               w2))
  /\ (forall out w2 w3,
        ask = (Ok out, w2) ->
        search out w2 = (Raise e, w3) ->
        exists top,
          List.length top = 15
          /\ run_main v (Build_page sh w)
             = (Raise e,
                Build_page
                  (sh ++ top
                      ++ query_calls resolved_model (company_text_of out))
                  w3))
  /\ (forall out w2 w3 w4 url urls user_info_list,
        ask = (Ok out, w2) ->
        search out w2 = (Ok (url :: urls), w3) ->
        extract (url :: urls) w3 = (Ok user_info_list, w4) ->
        format_user_info_to_flattened_json user_info_list = Raise e ->
        exists top,
          List.length top = 15
          /\ run_main v (Build_page sh w)
             = (Raise e,
                Build_page
                  (sh ++ top
                      ++ query_calls resolved_model (company_text_of out)
                      ++ url_calls (url :: urls))
                  w4)).
Proof.
  split; [|split].
  - intros w2 Hagent. give_top. enter_handler. rewrite Hagent. same_calls.
  - intros out w2 w3 Hagent Hsearch. give_top. enter_handler.
    after_agent out Hagent. rewrite Hsearch. same_calls.
  - intros out w2 w3 w4 url urls infos Hagent Hsearch Hextract Hflat.
    give_top. enter_handler. after_agent out Hagent.
    rewrite Hsearch. unfold_page. rewrite for_st. unfold_page.
    rewrite Hextract, Hflat. same_calls.
Qed.

End MainRuns.

Lemma main_no_remote_call_witness :
  exists top,
    List.length top = 15
    /\ main nat demo_genai demo_agent down_post down_extract VNone
         denied_open demo_write demo_csv demo_json demo_str demo_exn_str
         blank_widgets (Build_page [] 0)
       = (Ok Done,
          Build_page
            ([] ++ top
                ++ [call "error"
                      [VStr "Please fill in the required API keys and describe what leads you're looking for."]
                      []])
            0).
Proof.
  apply (proj2 (proj2 (main_no_remote_call demo_genai demo_agent down_post
                         down_extract VNone denied_open demo_write demo_csv
                         demo_json demo_str demo_exn_str blank_widgets
                         [] 0))).
  - reflexivity.
  - reflexivity.
  - right. right. reflexivity.
Defined.

Lemma main_no_urls_witness :
  exists top,
    List.length top = 15
    /\ main nat demo_genai demo_agent
         (demo_post (VDict [("success", VBool true); ("data", VList [])]))
         down_extract VNone denied_open demo_write demo_csv demo_json
         demo_str demo_exn_str demo_widgets (Build_page [] 0)
       = (Ok Done,
          Build_page
            ([] ++ top
                ++ query_calls "gemini-2.5-flash-001"
                     (company_text_of (HasContent (VStr "AI chatbots")))
                ++ [call "warning" [VStr "No relevant URLs found."] []])
            3).
Proof.
  apply (main_no_urls demo_genai demo_agent
           (demo_post (VDict [("success", VBool true); ("data", VList [])]))
           down_extract VNone denied_open demo_write demo_csv demo_json
           demo_str demo_exn_str demo_widgets [] 0
           eq_refl eq_refl ltac:(discriminate) ltac:(discriminate)
           ltac:(discriminate) "gemini-2.5-flash-001" 1 eq_refl
           (HasContent (VStr "AI chatbots")) 2 3 eq_refl eq_refl).
Defined.

Lemma main_nothing_extracted_witness :
  exists top,
    List.length top = 15
    /\ main nat demo_genai demo_agent (demo_post sample_search_body)
         down_extract VNone denied_open demo_write demo_csv demo_json
         demo_str demo_exn_str demo_widgets (Build_page [] 0)
       = (Ok Done,
          Build_page
            ([] ++ top
                ++ query_calls "gemini-2.5-flash-001"
                     (company_text_of (HasContent (VStr "AI chatbots")))
                ++ url_calls [VStr "https://www.quora.com/q1";
                              VStr "https://www.quora.com/q2"])
            4).
Proof.
  apply (main_nothing_extracted demo_genai demo_agent
           (demo_post sample_search_body)
           down_extract VNone denied_open demo_write demo_csv demo_json
           demo_str demo_exn_str demo_widgets [] 0
           eq_refl eq_refl ltac:(discriminate) ltac:(discriminate)
           ltac:(discriminate) "gemini-2.5-flash-001" 1 eq_refl
           (HasContent (VStr "AI chatbots")) 2 3 4
           (VStr "https://www.quora.com/q1")
           [VStr "https://www.quora.com/q2"] eq_refl eq_refl eq_refl).
Defined.

Lemma main_save_outcome_witness :
  exists top,
    List.length top = 15
    /\ main nat demo_genai demo_agent (demo_post sample_search_body)
         sample_extract VNone denied_open demo_write demo_csv demo_json
         demo_str demo_exn_str demo_widgets (Build_page [] 0)
       = (Ok Done,
          Build_page
            ([] ++ top
                ++ query_calls "gemini-2.5-flash-001"
                     (company_text_of (HasContent (VStr "AI chatbots")))
                ++ url_calls [VStr "https://www.quora.com/q1";
                              VStr "https://www.quora.com/q2"]
                ++ lead_calls
                     (flat_record (VStr "https://www.quora.com/q1")
                        [("username", VStr "https://www.quora.com/q1")]
                      :: [flat_record (VStr "https://www.quora.com/q2")
                            [("username", VStr "https://www.quora.com/q2")]])
                     (String.concat "," record_keys) "[]"
                ++ [call "error"
                      [VStr ("Failed to save CSV: "
                               ++ demo_exn_str
                                    (ExternalError "PermissionError"))%string]
                      []])
            6).
Proof.
  destruct (main_save_outcome demo_genai demo_agent
              (demo_post sample_search_body)
              sample_extract VNone denied_open demo_write demo_csv demo_json
              demo_str demo_exn_str demo_widgets [] 0
              eq_refl eq_refl ltac:(discriminate) ltac:(discriminate)
              ltac:(discriminate) "gemini-2.5-flash-001" 1 eq_refl
              (HasContent (VStr "AI chatbots")) 2 3 5 6
              (VStr "https://www.quora.com/q1")
              [VStr "https://www.quora.com/q2"]
              _ _ _ record_keys (String.concat "," record_keys) "[]"
              eq_refl eq_refl eq_refl eq_refl eq_refl eq_refl eq_refl)
    as (top & Hlen & Hdenied & _).
  exists top. split; [exact Hlen|].
  apply (Hdenied (ExternalError "PermissionError")). reflexivity.
Defined.

Lemma main_errors_are_fatal_witness :
  exists top,
    List.length top = 15
    /\ main nat demo_genai demo_agent down_post
         sample_extract VNone denied_open demo_write demo_csv demo_json
         demo_str demo_exn_str demo_widgets (Build_page [] 0)
       = (Raise (ExternalError "ConnectionError"),
          Build_page
            ([] ++ top
                ++ query_calls "gemini-2.5-flash-001"
                     (company_text_of (HasContent (VStr "AI chatbots"))))
            3).
Proof.
  apply (proj1 (proj2 (main_errors_are_fatal demo_genai demo_agent down_post
                  sample_extract VNone denied_open demo_write demo_csv
                  demo_json demo_str demo_exn_str demo_widgets [] 0
                  eq_refl eq_refl ltac:(discriminate) ltac:(discriminate)
                  ltac:(discriminate) "gemini-2.5-flash-001" 1 eq_refl
                  (ExternalError "ConnectionError")))
           (HasContent (VStr "AI chatbots")) 2 3 eq_refl eq_refl).
Defined.
